(** * Hit analysis of one DUT: noisy-pixel masking, hit removal, clustering

    A shallow embedding of [testbeam_analysis/hit_analysis.py]:
    [generate_pixel_mask], [remove_noisy_pixels] and [cluster_hits],
    over a small model of the HDF5 files they read and write.

    Conventions.
    - numpy integer arrays are lists of [Z]; the one explicit cast of the
      source, [astype(np.int32)], is written out with its wrap-around.
    - float64 values ([threshold], [np.ma.std], their product and the
      comparison against it) are kept behind the interface [FloatOps]:
      every statement holds for whatever these operations compute.
    - [HitClusterizer] belongs to the external package [pixel_clusterizer];
      it is an interface as well ([Clusterizer]).
    - plotting ([plot=True]) and logging are left out: they are external
      collaborators that only read the files written here.
    - node names are taken to be valid HDF5 names, paths to be writable. *)

From Stdlib Require Import ZArith Lia Ascii String.
From stdpp Require Import base option list gmap strings fin_maps sorting.

Local Open Scope Z_scope.

(** ** Errors and results *)

Inductive PyError :=
  | AttributeError   (* attribute access on None *)
  | IndexError       (* histogram index outside the array *)
  | ValueError       (* numpy / PyTables argument errors *)
  | RuntimeError     (* raised by the source itself, and by scipy *)
  | IOError          (* file to read does not exist *)
  | NoSuchNodeError  (* node missing in an HDF5 file *)
  | NodeError        (* node created twice *)
  | TypeError.       (* bad call: unexpected or missing argument *)

Inductive result (A : Type) :=
  | Ok (a : A)
  | Err (e : PyError).
Arguments Ok {A} a.
Arguments Err {A} e.

#[global] Instance result_bind : MBind result := fun A B k r =>
  match r with
  | Ok a => k a
  | Err e => Err e
  end.
#[global] Instance result_ret : MRet result := fun A a => Ok a.

(** ** Data model *)

Record Hit := mkHit {
  event_number : Z;
  frame : Z;
  column : Z;
  row : Z;
  charge : Z
}.

(** One row of the [Cluster] table.  The three ['f4'] fields are carried
    as integers standing for the stored values: [cluster_hits] only copies
    the rows it is given. *)
Record Cluster := mkCluster {
  cl_event_number : Z;   (* '<i8' *)
  cl_ID : Z;             (* '<u2' *)
  cl_n_hits : Z;         (* '<u2' *)
  cl_charge : Z;         (* 'f4'  *)
  cl_seed_column : Z;    (* '<u2' *)
  cl_seed_row : Z;       (* '<u2' *)
  cl_mean_column : Z;    (* 'f4'  *)
  cl_mean_row : Z        (* 'f4'  *)
}.

(** ** Two-dimensional arrays, indexed [a[column][row]] *)

Abbreviation array2 A := (list (list A)).

Definition seqZ0 (n : Z) : list Z := map Z.of_nat (seq 0 (Z.to_nat n)).

Definition tabulate2 {A} (shape : Z * Z) (f : Z → Z → A) : array2 A :=
  map (fun c => map (fun r => f c r) (seqZ0 (snd shape))) (seqZ0 (fst shape)).

Definition get2 {A} (a : array2 A) (c r : Z) : option A :=
  if decide (0 ≤ c ∧ 0 ≤ r)
  then l ← a !! Z.to_nat c; l !! Z.to_nat r
  else None.

Definition in_shape (shape : Z * Z) (c r : Z) : Prop :=
  0 ≤ c < fst shape ∧ 0 ≤ r < snd shape.

Definition in_shapeb (shape : Z * Z) (c r : Z) : bool :=
  bool_decide (0 ≤ c < fst shape ∧ 0 ≤ r < snd shape).

Definition map2d {A B} (f : A → B) (a : array2 A) : array2 B := map (map f) a.

Definition zip2d {A B C} (f : A → B → C) (a : array2 A) (b : array2 B) : array2 C :=
  zip_with (zip_with f) a b.

Definition shape_of {A} (a : array2 A) : Z * Z :=
  (Z.of_nat (length a), match a with l :: _ => Z.of_nat (length l) | [] => 0 end).

(** ** Occupancy histogram *)

(** Modelled from the spec: [analysis_utils.hist_2d_index] is not part of
    the sources at hand.  It bins index pairs into an integer array of the
    given shape ("accumulate a 2D occupancy histogram over all hits"); an
    index outside the array has no bin and is an error. *)
Definition count_at (xy : list (Z * Z)) (c r : Z) : Z :=
  Z.of_nat (length (filter (fun p => p = (c, r)) xy)).

Definition hist_2d_index (xy : list (Z * Z)) (shape : Z * Z) : result (array2 Z) :=
  if forallb (fun p => in_shapeb shape (fst p) (snd p)) xy
  then Ok (tabulate2 shape (count_at xy))
  else Err IndexError.

(** [col - 1, row - 1] of a chunk of hits. *)
Definition pixel_index (h : Hit) : Z * Z := (column h - 1, row h - 1).

(** The loop of [generate_pixel_mask] over the chunks: [occupancy] starts
    as [None], takes the first chunk's histogram and adds the later ones. *)
Fixpoint accumulate_occupancy (occupancy : option (array2 Z))
    (chunks : list (list Hit)) (n_pixel : Z * Z) : result (option (array2 Z)) :=
  match chunks with
  | [] => Ok occupancy
  | hits :: rest =>
      chunk_occ ← hist_2d_index (map pixel_index hits) n_pixel;
      match occupancy with
      | None => accumulate_occupancy (Some chunk_occ) rest n_pixel
      | Some occ => accumulate_occupancy (Some (zip2d Z.add occ chunk_occ)) rest n_pixel
      end
  end.

(** ** Median filter *)

(** [astype(np.int32)]: two's-complement wrap-around to 32 bits. *)
Definition astype_int32 (x : Z) : Z := (x + 2^31) mod 2^32 - 2^31.

(** [scipy.ndimage.median_filter(a, size, mode='constant', cval=0.0)] on a
    2-d array: around every pixel a window of [size] columns by rows,
    centred at [size // 2], cells outside the array counting as [0]; the
    result is the entry of rank [n // 2] of the sorted window of [n] cells. *)
Definition window_offsets (s : Z) : list Z := map (fun k => k - s / 2) (seqZ0 s).

Definition padded_get (a : array2 Z) (c r : Z) : Z := default 0 (get2 a c r).

Definition window (a : array2 Z) (size : Z * Z) (c r : Z) : list Z :=
  dc ← window_offsets (fst size); dr ← window_offsets (snd size);
  [padded_get a (c + dc) (r + dr)].

Definition rank_of_sorted (l : list Z) : Z :=
  nth (Nat.div (length l) 2) (merge_sort Z.le l) 0.

Definition median_at (a : array2 Z) (size : Z * Z) (c r : Z) : Z :=
  rank_of_sorted (window a size c r).

(** The footprint is [numpy.ones(size)]: a negative size is refused there
    with [ValueError]; a footprint without cells is refused by the filter
    itself with [RuntimeError]. *)
Definition median_filter (a : array2 Z) (size : Z * Z) : result (array2 Z) :=
  if decide (fst size < 0 ∨ snd size < 0) then Err ValueError
  else if decide (0 < fst size ∧ 0 < snd size)
  then Ok (tabulate2 (shape_of a) (median_at a size))
  else Err RuntimeError.

(** ** Floating point, as an interface *)

Class FloatOps := {
  float : Type;
  (** [np.ma.std] of the (flattened) difference array *)
  ma_std : list Z → float;
  (** [threshold * std] *)
  fmul : float → float → float;
  (** [difference > abs_occ_threshold], for one entry *)
  gt_int : Z → float → bool
}.

(** ** The array part of [generate_pixel_mask] *)

Section PixelMask.
Context `{FloatOps}.

Definition noisy_pixels_of (occupancy blurred : array2 Z) (threshold : float)
    : array2 bool :=
  let difference := zip2d Z.sub occupancy blurred in
  let std := ma_std (concat difference) in
  let abs_occ_threshold := fmul threshold std in
  map2d (fun d => gt_int d abs_occ_threshold) difference.

(** Lines 55-75: from the chunks to [(HistOcc, mask)]. *)
Definition pixel_mask_arrays (chunks : list (list Hit)) (n_pixel : Z * Z)
    (threshold : float) (filter_size : Z * Z) : result (array2 Z * array2 bool) :=
  o ← accumulate_occupancy None chunks n_pixel;
  match o with
  | None => Err AttributeError   (* occupancy.astype on None *)
  | Some occupancy =>
      blurred ← median_filter (map2d astype_int32 occupancy) filter_size;
      Ok (occupancy, noisy_pixels_of occupancy blurred threshold)
  end.

End PixelMask.

(** ** Reading a table in chunks *)

(** Modelled from the spec: [analysis_utils.data_aligned_at_events] is not
    part of the sources at hand.  It yields the rows of a table in chunks
    of [chunk_size] rows, each "extended forward until the current
    event_number is fully consumed", so that no event is split between a
    chunk and the next; a table without rows yields no chunk. *)
Fixpoint span_event (ev : Z) (rows : list Hit) : list Hit * list Hit :=
  match rows with
  | h :: rest =>
      if decide (event_number h = ev)
      then let '(same, others) := span_event ev rest in (h :: same, others)
      else ([], rows)
  | [] => ([], [])
  end.

Definition next_chunk (chunk_size : nat) (rows : list Hit) : list Hit * list Hit :=
  let head := take chunk_size rows in
  let rest := drop chunk_size rows in
  match last head with
  | Some h => let '(same, others) := span_event (event_number h) rest in
              (head ++ same, others)
  | None => (head, rest)
  end.

Fixpoint chunks_from (fuel : nat) (chunk_size : nat) (rows : list Hit)
    : list (list Hit) :=
  match fuel, rows with
  | S fuel', _ :: _ =>
      let '(chunk, rest) := next_chunk chunk_size rows in
      chunk :: chunks_from fuel' chunk_size rest
  | _, _ => []
  end.

Definition data_aligned_at_events (table : list Hit) (chunk_size : positive)
    : list (list Hit) :=
  chunks_from (length table) (Pos.to_nat chunk_size) table.

(** ** HDF5 files *)

Inductive Node :=
  | HitTable (rows : list Hit)
  | ClusterTable (rows : list Cluster)
  | IntArray (a : array2 Z)
  | BoolArray (a : array2 bool).

(** A file is its nodes by name; the file system is the files by path. *)
Abbreviation H5File := (gmap string Node).
Abbreviation FileSystem := (gmap string (gmap string Node)).

(** [tb.open_file(path, 'r')] *)
Definition open_read (fs : FileSystem) (path : string) : result H5File :=
  match fs !! path with
  | Some f => Ok f
  | None => Err IOError
  end.

(** [f.root.Hits] read as a hit table.  An array under that name cannot
    be read by field ([IndexError]); a table of clusters is no hit table,
    its rows lack the fields of a hit ([ValueError]). *)
Definition read_hits (f : H5File) : result (list Hit) :=
  match f !! "Hits"%string with
  | Some (HitTable rows) => Ok rows
  | Some (ClusterTable _) => Err ValueError
  | Some (IntArray _) | Some (BoolArray _) => Err IndexError
  | None => Err NoSuchNodeError
  end.

(** [f.root.<name>[:]] read as a mask.  The source only ever asks which
    entries are non-zero ([np.nonzero]), which it can of an array of
    integers as well: such an array is read as the mask of its non-zero
    entries. *)
Definition read_mask (f : H5File) (name : string) : result (array2 bool) :=
  match f !! name with
  | Some (BoolArray a) => Ok a
  | Some (IntArray a) => Ok (map2d (fun x => bool_decide (x ≠ 0)) a)
  | Some _ => Err ValueError
  | None => Err NoSuchNodeError
  end.

Definition read_occupancy (f : H5File) : result (array2 Z) :=
  match f !! "HistOcc"%string with
  | Some (IntArray a) => Ok a
  | Some _ => Err ValueError
  | None => Err NoSuchNodeError
  end.

(** [create_carray] / [create_table]: a new node under the root; a name
    that is taken is refused with [NodeError].  Names are node names as
    PyTables takes them (it refuses the empty name, ["."], a name with a
    slash and a reserved prefix before it looks for the node). *)
Definition create_node (f : H5File) (name : string) (n : Node) : result H5File :=
  match f !! name with
  | Some _ => Err NodeError
  | None => Ok (<[name := n]> f)
  end.

(** ** File names *)

Fixpoint rfind_from (i : Z) (c : ascii) (l : list ascii) (found : Z) : Z :=
  match l with
  | [] => found
  | x :: l' => rfind_from (i + 1) c l' (if decide (x = c) then i else found)
  end.

(** [p.rfind(c)]: the last index of [c], or [-1] *)
Definition rfind (c : ascii) (l : list ascii) : Z := rfind_from 0 c l (-1).

(** [os.path.splitext] (posix): the extension starts at the last dot of
    the last path component, leading dots of the component not counting. *)
Definition splitext_list (p : list ascii) : list ascii * list ascii :=
  let sepIndex := rfind "/" p in
  let dotIndex := rfind "." p in
  if decide (dotIndex > sepIndex) then
    let name := drop (Z.to_nat (sepIndex + 1)) (take (Z.to_nat dotIndex) p) in
    if existsb (fun x => negb (bool_decide (x = "."%char))) name
    then (take (Z.to_nat dotIndex) p, drop (Z.to_nat dotIndex) p)
    else (p, [])
  else (p, []).

Definition splitext (p : string) : string * string :=
  let '(root, ext) := splitext_list (list_ascii_of_string p) in
  (string_of_list_ascii root, string_of_list_ascii ext).

Definition is_upper (c : ascii) : bool :=
  let n := nat_of_ascii c in (65 <=? n)%nat && (n <=? 90)%nat.

(** [str.lower] on a character of an ASCII name: [A-Z] go to [a-z], every
    other character stays. *)
Definition lower (c : ascii) : ascii :=
  if is_upper c then ascii_of_nat (nat_of_ascii c + 32) else c.

(** [re.findall('[A-Z][^A-Z]*', name)]: every capital letter starts an
    item that runs up to the next capital; what precedes the first capital
    is dropped. *)
Fixpoint findall_capitalised (cur : option (list ascii)) (l : list ascii)
    : list (list ascii) :=
  let flush := match cur with Some w => [rev w] | None => [] end in
  match l with
  | [] => flush
  | c :: l' =>
      if is_upper c then flush ++ findall_capitalised (Some [c]) l'
      else match cur with
           | Some w => findall_capitalised (Some (c :: w)) l'
           | None => findall_capitalised None l'
           end
  end.

(** ['_'.join(items)] *)
Fixpoint join_underscore (items : list (list ascii)) : list ascii :=
  match items with
  | [] => []
  | [w] => w
  | w :: rest => w ++ "_"%char :: join_underscore rest
  end.

(** ['_'.join(item.lower() for item in re.findall('[A-Z][^A-Z]*', name))] *)
Definition snake_case (name : string) : string :=
  string_of_list_ascii
    (join_underscore
       (map (map lower) (findall_capitalised None (list_ascii_of_string name)))).

(** Line 53: the mask file when [output_mask_file] is [None]. *)
Definition default_mask_file (input_hits_file pixel_mask_name : string) : string :=
  (fst (splitext input_hits_file) +:+ "_" +:+ snake_case pixel_mask_name +:+ ".h5")%string.

(** Line 121. *)
Definition default_hits_file (input_hits_file : string) : string :=
  (fst (splitext input_hits_file) +:+ "_noisy_pixels.h5")%string.

(** Line 177. *)
Definition default_cluster_file (input_hits_file : string) : string :=
  (fst (splitext input_hits_file) +:+ "_cluster.h5")%string.

Example splitext_h5 : splitext "data/run.7/DUT0.h5" = ("data/run.7/DUT0", ".h5")%string.
Proof. reflexivity. Qed.

Example splitext_hidden : splitext "data/.hidden" = ("data/.hidden", "")%string.
Proof. reflexivity. Qed.

Example default_mask_file_noisy :
  default_mask_file "DUT0.h5" "NoisyPixelMask" = "DUT0_noisy_pixel_mask.h5"%string.
Proof. reflexivity. Qed.

(** ** Writing a file: [with tb.open_file(path, 'w') as out_file_h5] *)

(** The body of the [with] block is a computation over the contents of
    the file being written; an exception leaves what was written so far. *)
Definition Writer (A : Type) : Type := H5File → H5File * result A.

Definition w_ret {A} (a : A) : Writer A := fun f => (f, Ok a).

Definition w_bind {A B} (m : Writer A) (k : A → Writer B) : Writer B :=
  fun f => match m f with
           | (f', Ok a) => k a f'
           | (f', Err e) => (f', Err e)
           end.

Definition w_lift {A} (r : result A) : Writer A := fun f => (f, r).

Notation "'let*' x ':=' m 'in' k" := (w_bind m (fun x => k))
  (at level 10, x pattern, m at level 100, k at level 200, only parsing).

Definition create (name : string) (n : Node) : Writer unit :=
  fun f => match create_node f name n with
           | Ok f' => (f', Ok tt)
           | Err e => (f, Err e)
           end.

(** [hit_table_out.append(hits)] *)
Definition append_hits (rows : list Hit) : Writer unit :=
  fun f => match f !! "Hits"%string with
           | Some (HitTable old) => (<["Hits"%string := HitTable (old ++ rows)]> f, Ok tt)
           | _ => (f, Err NoSuchNodeError)
           end.

(** [cluster_table_out.append(cluster)] *)
Definition append_clusters (rows : list Cluster) : Writer unit :=
  fun f => match f !! "Cluster"%string with
           | Some (ClusterTable old) =>
               (<["Cluster"%string := ClusterTable (old ++ rows)]> f, Ok tt)
           | _ => (f, Err NoSuchNodeError)
           end.

(** Opening for writing starts from an empty file, whatever was there;
    closing leaves the nodes written by the body. *)
Definition with_open_write {A} (fs : FileSystem) (path : string) (body : Writer A)
    : FileSystem * result A :=
  let '(f, r) := body ∅ in (<[path := f]> fs, r).

(** ** numpy index helpers *)

Fixpoint true_indices (i : Z) (l : list bool) : list Z :=
  match l with
  | [] => []
  | b :: l' => (if b then [i] else []) ++ true_indices (i + 1) l'
  end.

Fixpoint nonzero_from (c : Z) (m : array2 bool) : list (Z * Z) :=
  match m with
  | [] => []
  | l :: m' => map (pair c) (true_indices 0 l) ++ nonzero_from (c + 1) m'
  end.

(** [np.nonzero(mask)], as (column, row) pairs in C order *)
Definition nonzero (m : array2 bool) : list (Z * Z) := nonzero_from 0 m.

(** [np.ravel_multi_index((cols, rows), dims)]: an index outside [dims]
    raises [ValueError]. *)
Definition ravel_index (dims : Z * Z) (p : Z * Z) : result Z :=
  if in_shapeb dims (fst p) (snd p) then Ok (fst p * snd dims + snd p)
  else Err ValueError.

Fixpoint ravel_multi_index (ps : list (Z * Z)) (dims : Z * Z) : result (list Z) :=
  match ps with
  | [] => Ok []
  | p :: ps' =>
      i ← ravel_index dims p;
      js ← ravel_multi_index ps' dims;
      Ok (i :: js)
  end.

(** [np.in1d(a, b, invert=True)] *)
Definition in1d_invert (a b : list Z) : list bool :=
  map (fun i => bool_decide (i ∉ b)) a.

(** [hits[flags]] *)
Definition boolean_index {A} (l : list A) (flags : list bool) : list A :=
  map fst (filter (fun p => snd p = true) (zip l flags)).

(** ** [generate_pixel_mask] and [remove_noisy_pixels] *)

Section NoiseMasker.
Context `{FloatOps}.

Definition generate_pixel_mask (fs : FileSystem) (input_hits_file : string)
    (n_pixel : Z * Z) (pixel_mask_name : string) (output_mask_file : option string)
    (threshold : float) (filter_size : Z * Z) (chunk_size : positive)
    : FileSystem * result string :=
  let output_mask_file :=
    default (default_mask_file input_hits_file pixel_mask_name) output_mask_file in
  match
    input_file_h5 ← open_read fs input_hits_file;
    hits ← read_hits input_file_h5;
    pixel_mask_arrays (data_aligned_at_events hits chunk_size)
      n_pixel threshold filter_size
  with
  | Err e => (fs, Err e)
  | Ok (occupancy, noisy_pixels_mask) =>
      with_open_write fs output_mask_file
        (let* _ := create "HistOcc" (IntArray occupancy) in
         let* _ := create pixel_mask_name (BoolArray noisy_pixels_mask) in
         w_ret output_mask_file)
  end.

(** Lines 146-150, one iteration per chunk. *)
Fixpoint select_not_noisy (masked_pixels_1d : list Z) (n_pixel : Z * Z)
    (chunks : list (list Hit)) : Writer unit :=
  match chunks with
  | [] => w_ret tt
  | hits :: rest =>
      let* hits_1d := w_lift (ravel_multi_index (map pixel_index hits) n_pixel) in
      let* _ := append_hits (boolean_index hits (in1d_invert hits_1d masked_pixels_1d)) in
      select_not_noisy masked_pixels_1d n_pixel rest
  end.

(** Line 152 logs the ratio [Hits.nrows / hit_table_out.nrows].  Both
    row counts are numpy integers, so an empty output gives [inf] or [nan]
    and a warning, never an exception: the line has no effect here. *)

Definition remove_noisy_pixels (fs : FileSystem) (input_hits_file : string)
    (n_pixel : Z * Z) (output_hits_file : option string)
    (threshold : float) (filter_size : Z * Z) (chunk_size : positive)
    : FileSystem * result string :=
  let output_hits_file :=
    default (default_hits_file input_hits_file) output_hits_file in
  match generate_pixel_mask fs input_hits_file n_pixel "DisabledPixelMask" None
          threshold filter_size chunk_size with
  | (fs1, Err e) => (fs1, Err e)
  | (fs1, Ok output_mask_file) =>
      match
        input_file_h5 ← open_read fs1 output_mask_file;
        pixel_mask ← read_mask input_file_h5 "DisabledPixelMask";
        occupancy ← read_occupancy input_file_h5;
        masked_pixels_1d ←
          (let masked_pixels := nonzero pixel_mask in
           if decide (masked_pixels = []) then Ok []
           else ravel_multi_index masked_pixels n_pixel);
        input_file_h5 ← open_read fs1 input_hits_file;
        Ok (pixel_mask, occupancy, masked_pixels_1d, input_file_h5)
      with
      | Err e => (fs1, Err e)
      | Ok (pixel_mask, occupancy, masked_pixels_1d, input_file_h5) =>
          (* the input is still open for reading *)
          if decide (output_hits_file = input_hits_file) then (fs1, Err ValueError)
          else
            with_open_write fs1 output_hits_file
              (let* hits := w_lift (read_hits input_file_h5) in
               let* _ := create "Hits" (HitTable []) in
               let* _ := select_not_noisy masked_pixels_1d n_pixel
                           (data_aligned_at_events hits chunk_size) in
               let* _ := create "HistOcc" (IntArray occupancy) in
               let* _ := create "DisabledPixelMask" (BoolArray pixel_mask) in
               w_ret output_hits_file)
      end
  end.

End NoiseMasker.

(** ** An exact implementation of the float interface

    Values [(num / den) * sqrt rad] with integer [num], [den > 0] and
    [rad >= 0]: the standard deviation of integers, its products with
    rational thresholds, and comparisons against integers are all exact.
    It serves to run the functions on concrete inputs. *)

Record surd := mkSurd { s_num : Z; s_den : Z; s_rad : Z }.

Definition sum_Z (l : list Z) : Z := foldr Z.add 0 l.

(** population standard deviation: [sqrt (n * sum d^2 - (sum d)^2) / n] *)
Definition surd_std (l : list Z) : surd :=
  let n := Z.of_nat (length l) in
  mkSurd 1 n (n * sum_Z (map (fun d => d * d) l) - sum_Z l * sum_Z l).

Definition surd_mul (a b : surd) : surd :=
  mkSurd (s_num a * s_num b) (s_den a * s_den b) (s_rad a * s_rad b).

(** [d > (num / den) * sqrt rad], decided on squares *)
Definition surd_lt_int (d : Z) (x : surd) : bool :=
  let a := d * s_den x in
  let b := s_num x in
  let r := s_rad x in
  if decide (b = 0 ∨ r = 0) then bool_decide (0 < a)
  else if decide (0 < b) then bool_decide (0 < a ∧ b * b * r < a * a)
  else bool_decide (0 ≤ a ∨ a * a < b * b * r).

Definition exact_arith : FloatOps :=
  {| float := surd; ma_std := surd_std; fmul := surd_mul; gt_int := surd_lt_int |}.

(** a decimal threshold such as [10.0] *)
Definition surd_of_ratio (num den : Z) : surd := mkSurd num den 1.

(** ** [cluster_hits] *)

(** [np.diff] of an ['<i8'] column wraps around at 64 bits. *)
Definition wrap_int64 (x : Z) : Z := (x + 2^63) mod 2^64 - 2^63.

Definition np_diff (l : list Z) : list Z :=
  zip_with (fun a b => wrap_int64 (b - a)) l (tail l).

(** [np.all(np.diff(l) >= 0)] *)
Definition all_diff_nonneg (l : list Z) : bool :=
  forallb (fun d => bool_decide (0 ≤ d)) (np_diff l).

(** [np.dstack(np.nonzero(mask))[0] + 1]: the flagged pixels, 1-based *)
Definition pixels_of_mask (mask : array2 bool) : list (Z * Z) :=
  map (fun p => (fst p + 1, snd p + 1)) (nonzero mask).

(** Lines 179-189: an optional mask file and the node read from it. *)
Definition read_pixels (fs : FileSystem) (mask_file : option string) (name : string)
    : result (option (list (Z * Z))) :=
  match mask_file with
  | Some path =>
      input_file_h5 ← open_read fs path;
      mask ← read_mask input_file_h5 name;
      Ok (Some (pixels_of_mask mask))
  | None => Ok None
  end.

(** The clusterizer object of [pixel_clusterizer]: built once per call of
    [cluster_hits], then asked to cluster chunk after chunk.  Its state is
    threaded through the calls; the call may raise. *)
Class Clusterizer := {
  clusterizer : Type;
  cluster_hit : Type;
  (** [HitClusterizer(column_cluster_distance, row_cluster_distance,
      frame_cluster_distance, min_hit_charge, max_hit_charge)] *)
  HitClusterizer : Z → Z → Z → Z → option Z → clusterizer;
  (** [clusterizer.cluster_hits(hits, noisy_pixels, disabled_pixels)] *)
  clusterizer_cluster_hits :
    clusterizer → list Hit → option (list (Z * Z)) → option (list (Z * Z)) →
    result (clusterizer * (list cluster_hit * list Cluster))
}.

Section PixelClusterer.
Context `{Clusterizer}.

(** Lines 206-212, one iteration per chunk. *)
Fixpoint cluster_chunks (cz : clusterizer)
    (noisy_pixels disabled_pixels : option (list (Z * Z)))
    (chunks : list (list Hit)) : Writer unit :=
  match chunks with
  | [] => w_ret tt
  | hits :: rest =>
      if negb (all_diff_nonneg (map event_number hits))
      then w_lift (Err RuntimeError)
      else
        let* (cz', (_, cluster)) :=
          w_lift (clusterizer_cluster_hits cz hits noisy_pixels disabled_pixels) in
        if negb (all_diff_nonneg (map cl_event_number cluster))
        then w_lift (Err RuntimeError)
        else
          let* _ := append_clusters cluster in
          cluster_chunks cz' noisy_pixels disabled_pixels rest
  end.

Definition cluster_hits (fs : FileSystem) (input_hits_file : string)
    (output_cluster_file input_disabled_pixel_mask_file
       input_noisy_pixel_mask_file : option string)
    (min_hit_charge : Z) (max_hit_charge : option Z)
    (column_cluster_distance row_cluster_distance frame_cluster_distance : Z)
    (chunk_size : positive) : FileSystem * result string :=
  let output_cluster_file :=
    default (default_cluster_file input_hits_file) output_cluster_file in
  match
    disabled_pixels ← read_pixels fs input_disabled_pixel_mask_file "DisabledPixelMask";
    noisy_pixels ← read_pixels fs input_noisy_pixel_mask_file "NoisyPixelMask";
    input_file_h5 ← open_read fs input_hits_file;
    Ok (disabled_pixels, noisy_pixels, input_file_h5)
  with
  | Err e => (fs, Err e)
  | Ok (disabled_pixels, noisy_pixels, input_file_h5) =>
      (* the input is still open for reading *)
      if decide (output_cluster_file = input_hits_file) then (fs, Err ValueError)
      else
        with_open_write fs output_cluster_file
          (let cz := HitClusterizer column_cluster_distance row_cluster_distance
                       frame_cluster_distance min_hit_charge max_hit_charge in
           let* _ := create "Cluster" (ClusterTable []) in
           let* hits := w_lift (read_hits input_file_h5) in
           let* _ := cluster_chunks cz noisy_pixels disabled_pixels
                       (data_aligned_at_events hits chunk_size) in
           w_ret output_cluster_file)
  end.

(** *** Calling [cluster_hits] with keyword arguments *)

Inductive PyVal :=
  | PyNone
  | PyInt (z : Z)
  | PyStr (s : string)
  | PyBool (b : bool).

(** The parameters of [def cluster_hits(...)] (line 165), in order, with
    their defaults; [input_hits_file] has none. *)
Definition cluster_hits_parameters : list (string * option PyVal) :=
  [ ("input_hits_file", None);
    ("output_cluster_file", Some PyNone);
    ("input_disabled_pixel_mask_file", Some PyNone);
    ("input_noisy_pixel_mask_file", Some PyNone);
    ("min_hit_charge", Some (PyInt 0));
    ("max_hit_charge", Some PyNone);
    ("column_cluster_distance", Some (PyInt 1));
    ("row_cluster_distance", Some (PyInt 1));
    ("frame_cluster_distance", Some (PyInt 1));
    ("dut_name", Some PyNone);
    ("plot", Some (PyBool true));
    ("chunk_size", Some (PyInt 1000000)) ]%string.

(** Binding the keywords of a call (a [kwds] dictionary) to the parameters:
    a keyword that names no parameter, or a parameter left without value
    and without default, is a [TypeError]. *)
Definition bind_keywords (params : list (string * option PyVal))
    (kwds : gmap string PyVal) : result (gmap string PyVal) :=
  if decide (dom kwds ⊆ list_to_set (map fst params)) then
    foldr (fun p acc =>
             bound ← acc;
             match kwds !! fst p, snd p with
             | Some v, _ => Ok (<[fst p := v]> bound)
             | None, Some d => Ok (<[fst p := d]> bound)
             | None, None => Err TypeError
             end)
          (Ok ∅) params
  else Err TypeError.

Definition as_str (v : option PyVal) : result string :=
  match v with Some (PyStr s) => Ok s | _ => Err TypeError end.

Definition as_opt_str (v : option PyVal) : result (option string) :=
  match v with
  | Some PyNone => Ok None
  | Some (PyStr s) => Ok (Some s)
  | _ => Err TypeError
  end.

Definition as_int (v : option PyVal) : result Z :=
  match v with Some (PyInt z) => Ok z | _ => Err TypeError end.

Definition as_opt_int (v : option PyVal) : result (option Z) :=
  match v with
  | Some PyNone => Ok None
  | Some (PyInt z) => Ok (Some z)
  | _ => Err TypeError
  end.

(** The chunk reader is modelled for chunks of at least one row; a call
    with another [chunk_size] is not run. *)
Definition as_chunk_size (v : option PyVal) : result positive :=
  match v with
  | Some (PyInt (Zpos p)) => Ok p
  | Some (PyInt _) => Err ValueError
  | _ => Err TypeError
  end.

(** [hit_analysis.cluster_hits] called with a dictionary of keywords,
    as the example scripts call it. *)
Definition call_cluster_hits (fs : FileSystem) (kwds : gmap string PyVal)
    : FileSystem * result string :=
  match
    a ← bind_keywords cluster_hits_parameters kwds;
    input_hits_file ← as_str (a !! "input_hits_file"%string);
    output_cluster_file ← as_opt_str (a !! "output_cluster_file"%string);
    disabled_file ← as_opt_str (a !! "input_disabled_pixel_mask_file"%string);
    noisy_file ← as_opt_str (a !! "input_noisy_pixel_mask_file"%string);
    min_hit_charge ← as_int (a !! "min_hit_charge"%string);
    max_hit_charge ← as_opt_int (a !! "max_hit_charge"%string);
    column_cluster_distance ← as_int (a !! "column_cluster_distance"%string);
    row_cluster_distance ← as_int (a !! "row_cluster_distance"%string);
    frame_cluster_distance ← as_int (a !! "frame_cluster_distance"%string);
    chunk_size ← as_chunk_size (a !! "chunk_size"%string);
    Ok (cluster_hits fs input_hits_file output_cluster_file disabled_file noisy_file
          min_hit_charge max_hit_charge column_cluster_distance
          row_cluster_distance frame_cluster_distance chunk_size)
  with
  | Ok r => r
  | Err e => (fs, Err e)
  end.

End PixelClusterer.

(** ** A sample clusterizer

    Every hit that survives the charge bounds and the pixel masks is a
    cluster of its own.  It stands in for [pixel_clusterizer] where the
    functions are run on concrete inputs. *)

Definition masked_by (pixels : option (list (Z * Z))) (h : Hit) : bool :=
  match pixels with
  | Some ps => bool_decide ((column h, row h) ∈ ps)
  | None => false
  end.

(** A hit not excluded by the charge bounds or by a pixel mask. *)
Definition surviving (min_hit_charge : Z) (max_hit_charge : option Z)
    (noisy_pixels disabled_pixels : option (list (Z * Z))) (h : Hit) : bool :=
  bool_decide (min_hit_charge ≤ charge h)
  && match max_hit_charge with
     | Some m => bool_decide (charge h ≤ m)
     | None => true
     end
  && negb (masked_by noisy_pixels h)
  && negb (masked_by disabled_pixels h).

Fixpoint number_clusters (ev : option Z) (next_id : Z) (hits : list Hit)
    : list Cluster :=
  match hits with
  | [] => []
  | h :: rest =>
      let id := if decide (ev = Some (event_number h)) then next_id else 0 in
      mkCluster (event_number h) id 1 (charge h) (column h) (row h)
                (column h) (row h)
      :: number_clusters (Some (event_number h)) (id + 1) rest
  end.

Definition singleton_clusterizer : Clusterizer :=
  {| clusterizer := Z * option Z;
     cluster_hit := Hit;
     HitClusterizer := fun _ _ _ min_hit_charge max_hit_charge =>
       (min_hit_charge, max_hit_charge);
     clusterizer_cluster_hits := fun cz hits noisy_pixels disabled_pixels =>
       let kept := filter (fun h => surviving (fst cz) (snd cz)
                                      noisy_pixels disabled_pixels h = true) hits in
       Ok (cz, (kept, number_clusters None 0 kept)) |}.

(** * Properties *)

(** ** Chunked reading *)

Lemma span_event_app ev rows :
  fst (span_event ev rows) ++ snd (span_event ev rows) = rows.
Proof.
  induction rows as [|h rest IH]; simpl; [done|].
  case_decide; [|done].
  destruct (span_event ev rest) as [same others]; simpl in *. by f_equal.
Qed.

Lemma next_chunk_app n rows :
  fst (next_chunk n rows) ++ snd (next_chunk n rows) = rows.
Proof.
  unfold next_chunk.
  destruct (last (take n rows)) as [h|].
  - pose proof (span_event_app (event_number h) (drop n rows)) as E.
    destruct (span_event (event_number h) (drop n rows)) as [same others].
    simpl in *. by rewrite <- (assoc_L (++)), E, take_drop.
  - simpl. apply take_drop.
Qed.

Lemma next_chunk_rest_length n rows :
  (0 < n)%nat → rows ≠ [] →
  (length (snd (next_chunk n rows)) < length rows)%nat.
Proof.
  intros Hn Hrows.
  pose proof (next_chunk_app n rows) as E.
  assert (Hhead : (0 < length (fst (next_chunk n rows)))%nat).
  { unfold next_chunk.
    destruct rows as [|h rest]; [done|]. destruct n as [|n]; [lia|].
    destruct (last (take (S n) (h :: rest))) as [x|].
    - destruct (span_event (event_number x) (drop (S n) (h :: rest))).
      simpl. lia.
    - simpl. lia. }
  apply (f_equal length) in E. rewrite length_app in E. lia.
Qed.

Lemma concat_chunks_from fuel n rows :
  (0 < n)%nat → (length rows ≤ fuel)%nat →
  concat (chunks_from fuel n rows) = rows.
Proof.
  intros Hn. revert rows.
  induction fuel as [|fuel IH]; intros rows Hlen.
  - destruct rows; [done | simpl in Hlen; lia].
  - destruct rows as [|h rest]; [done|].
    cbn [chunks_from].
    pose proof (next_chunk_app n (h :: rest)) as E.
    pose proof (next_chunk_rest_length n (h :: rest) Hn) as L.
    destruct (next_chunk n (h :: rest)) as [chunk others]. simpl in *.
    rewrite IH; [done|]. specialize (L ltac:(done)). lia.
Qed.

Lemma data_aligned_at_events_concat table chunk_size :
  concat (data_aligned_at_events table chunk_size) = table.
Proof. apply concat_chunks_from; lia. Qed.

Lemma data_aligned_at_events_nil chunk_size :
  data_aligned_at_events [] chunk_size = [].
Proof. reflexivity. Qed.

Lemma data_aligned_at_events_cons table chunk_size :
  table ≠ [] → data_aligned_at_events table chunk_size ≠ [].
Proof.
  intros Ht E.
  pose proof (data_aligned_at_events_concat table chunk_size) as C.
  rewrite E in C. simpl in C. congruence.
Qed.

(** ** Arrays *)

Lemma map_is_fmap {A B} (f : A → B) (l : list A) : map f l = f <$> l.
Proof. reflexivity. Qed.

Lemma seqZ0_lookup n i :
  0 ≤ i < n → seqZ0 n !! Z.to_nat i = Some i.
Proof.
  intros Hi. unfold seqZ0.
  rewrite map_is_fmap, list_lookup_fmap, lookup_seq_lt by lia. simpl. f_equal. lia.
Qed.

Lemma seqZ0_length n : length (seqZ0 n) = Z.to_nat n.
Proof. unfold seqZ0. by rewrite length_map, length_seq. Qed.

Lemma get2_tabulate2 {A} shape (f : Z → Z → A) c r :
  in_shape shape c r → get2 (tabulate2 shape f) c r = Some (f c r).
Proof.
  intros [Hc Hr]. unfold get2, tabulate2.
  rewrite decide_True by lia.
  rewrite !map_is_fmap, list_lookup_fmap, seqZ0_lookup by done. simpl.
  by rewrite map_is_fmap, list_lookup_fmap, seqZ0_lookup.
Qed.

Lemma get2_tabulate2_outside {A} shape (f : Z → Z → A) c r :
  ¬ in_shape shape c r → get2 (tabulate2 shape f) c r = None.
Proof.
  intros Hout. unfold get2, tabulate2.
  case_decide as Hpos; [|done].
  rewrite map_is_fmap, list_lookup_fmap.
  destruct (decide (c < fst shape)) as [Hc|Hc].
  - rewrite seqZ0_lookup by lia. simpl.
    rewrite map_is_fmap, list_lookup_fmap.
    rewrite (lookup_ge_None_2 (seqZ0 (snd shape))); [done|].
    rewrite seqZ0_length. unfold in_shape in Hout. lia.
  - rewrite (lookup_ge_None_2 (seqZ0 (fst shape))); [done|].
    rewrite seqZ0_length. lia.
Qed.

Lemma tabulate2_ext {A} shape (f g : Z → Z → A) :
  (∀ c r, in_shape shape c r → f c r = g c r) →
  tabulate2 shape f = tabulate2 shape g.
Proof.
  intros E. unfold tabulate2.
  apply list_eq. intros i. rewrite !map_is_fmap, !list_lookup_fmap.
  destruct (seqZ0 (fst shape) !! i) as [c|] eqn:Ec; [simpl|done].
  f_equal. apply list_eq. intros j. rewrite !map_is_fmap, !list_lookup_fmap.
  destruct (seqZ0 (snd shape) !! j) as [r|] eqn:Er; [simpl|done].
  f_equal. apply E.
  unfold seqZ0 in Ec, Er. rewrite map_is_fmap, list_lookup_fmap in Ec, Er.
  destruct (seq 0 (Z.to_nat (fst shape)) !! i) as [c'|] eqn:Ec'; [|done].
  destruct (seq 0 (Z.to_nat (snd shape)) !! j) as [r'|] eqn:Er'; [|done].
  apply lookup_seq in Ec', Er'. simpl in *.
  injection Ec as <-. injection Er as <-. unfold in_shape. lia.
Qed.

Lemma zip_with_map_same {X A B C} (h : A → B → C) (f : X → A) (g : X → B) l :
  zip_with h (map f l) (map g l) = map (fun x => h (f x) (g x)) l.
Proof. induction l as [|x l IH]; simpl; [done | by rewrite IH]. Qed.

Lemma zip2d_tabulate2 {A B C} (h : A → B → C) shape f g :
  zip2d h (tabulate2 shape f) (tabulate2 shape g)
  = tabulate2 shape (fun c r => h (f c r) (g c r)).
Proof.
  unfold zip2d, tabulate2. rewrite zip_with_map_same.
  apply map_ext. intros c. apply zip_with_map_same.
Qed.

Lemma map2d_tabulate2 {A B} (h : A → B) shape f :
  map2d h (tabulate2 shape f) = tabulate2 shape (fun c r => h (f c r)).
Proof.
  unfold map2d, tabulate2.
  rewrite map_map. apply map_ext. intros c. by rewrite map_map.
Qed.

Lemma shape_of_tabulate2 {A} shape (f : Z → Z → A) :
  0 < fst shape → 0 ≤ snd shape → shape_of (tabulate2 shape f) = shape.
Proof.
  intros Hc Hr. unfold shape_of, tabulate2.
  rewrite length_map, seqZ0_length.
  destruct shape as [nc nr]. simpl in *.
  destruct (seqZ0 nc) as [|c cs] eqn:E.
  - apply (f_equal length) in E. rewrite seqZ0_length in E. simpl in E. lia.
  - simpl. rewrite length_map, seqZ0_length. f_equal; lia.
Qed.

(** ** Occupancy *)

(** The occupancy in the words of the specification: the number of hits
    with the given (1-based) column and row. *)
Definition occupancy_of (hits : list Hit) (c r : Z) : Z :=
  Z.of_nat (length (filter (fun h => column h = c ∧ row h = r) hits)).

(** The hits lie on the pixel grid: [1 <= column <= n_columns] and
    [1 <= row <= n_rows]. *)
Definition on_grid (n_pixel : Z * Z) (h : Hit) : Prop :=
  in_shape n_pixel (column h - 1) (row h - 1).

Lemma count_at_app xs ys c r :
  count_at (xs ++ ys) c r = count_at xs c r + count_at ys c r.
Proof. unfold count_at. rewrite filter_app, length_app. lia. Qed.

Lemma count_at_pixel_index hits i j :
  count_at (map pixel_index hits) i j = occupancy_of hits (i + 1) (j + 1).
Proof.
  unfold count_at, occupancy_of. f_equal.
  induction hits as [|h hits IH]; [done|].
  simpl. rewrite !filter_cons.
  destruct (decide (pixel_index h = (i, j))) as [E|E];
    destruct (decide (column h = i + 1 ∧ row h = j + 1)) as [E'|E'];
    simpl; try (by rewrite IH).
  - unfold pixel_index in E. injection E as E1 E2. lia.
  - destruct E. unfold pixel_index. f_equal; lia.
Qed.

Lemma occupancy_of_bounds hits c r :
  0 ≤ occupancy_of hits c r ≤ Z.of_nat (length hits).
Proof.
  unfold occupancy_of.
  pose proof (length_filter (fun h => column h = c ∧ row h = r) hits). lia.
Qed.

Lemma hist_2d_index_on_grid hits n_pixel :
  Forall (on_grid n_pixel) hits →
  hist_2d_index (map pixel_index hits) n_pixel
  = Ok (tabulate2 n_pixel (count_at (map pixel_index hits))).
Proof.
  intros Hgrid. unfold hist_2d_index.
  rewrite (proj2 (forallb_forall _ _)); [done|].
  intros p Hp. apply in_map_iff in Hp as (h & <- & Hh).
  apply list_elem_of_In in Hh.
  rewrite Forall_forall in Hgrid. specialize (Hgrid h Hh).
  unfold in_shapeb. by apply bool_decide_eq_true.
Qed.

Lemma accumulate_occupancy_some chunks n_pixel xs :
  Forall (on_grid n_pixel) (concat chunks) →
  accumulate_occupancy (Some (tabulate2 n_pixel (count_at xs))) chunks n_pixel
  = Ok (Some (tabulate2 n_pixel
                (count_at (xs ++ map pixel_index (concat chunks))))).
Proof.
  revert xs. induction chunks as [|hits rest IH]; intros xs Hgrid; simpl.
  - by rewrite app_nil_r.
  - apply Forall_app in Hgrid as [Hhits Hrest].
    rewrite hist_2d_index_on_grid by done. simpl.
    rewrite zip2d_tabulate2.
    rewrite (tabulate2_ext n_pixel _ (count_at (xs ++ map pixel_index hits)))
      by (intros; by rewrite count_at_app).
    rewrite IH by done. by rewrite map_app, (assoc_L (++)).
Qed.

(** The chunk histograms add up to the histogram of the whole table. *)
Lemma accumulate_occupancy_none chunks n_pixel :
  chunks ≠ [] →
  Forall (on_grid n_pixel) (concat chunks) →
  accumulate_occupancy None chunks n_pixel
  = Ok (Some (tabulate2 n_pixel
                (fun i j => occupancy_of (concat chunks) (i + 1) (j + 1)))).
Proof.
  destruct chunks as [|hits rest]; [done|]. intros _ Hgrid. simpl.
  simpl in Hgrid. apply Forall_app in Hgrid as [Hhits Hrest].
  rewrite hist_2d_index_on_grid by done. simpl.
  rewrite accumulate_occupancy_some by done.
  rewrite <- map_app. f_equal. f_equal.
  apply tabulate2_ext. intros. apply count_at_pixel_index.
Qed.

Lemma astype_int32_small x : 0 ≤ x < 2^31 → astype_int32 x = x.
Proof. intros Hx. unfold astype_int32. rewrite Z.mod_small; lia. Qed.

(** ** The noisy-pixel mask *)

Section NoiseMaskerSpec.
Context `{FloatOps}.

(** The arrays of the specification, from the hit table as a whole. *)
Definition occupancy_array (hits : list Hit) (n_pixel : Z * Z) : array2 Z :=
  tabulate2 n_pixel (fun i j => occupancy_of hits (i + 1) (j + 1)).

(** median over the window around pixel [(c, r)], zero past the edges *)
Definition smoothed (hits : list Hit) (n_pixel filter_size : Z * Z) (c r : Z) : Z :=
  median_at (occupancy_array hits n_pixel) filter_size (c - 1) (r - 1).

Definition difference (hits : list Hit) (n_pixel filter_size : Z * Z) (c r : Z) : Z :=
  occupancy_of hits c r - smoothed hits n_pixel filter_size c r.

(** the standard deviation of the difference over all pixels *)
Definition sigma (hits : list Hit) (n_pixel filter_size : Z * Z) : float :=
  ma_std (concat (tabulate2 n_pixel
                    (fun i j => difference hits n_pixel filter_size (i + 1) (j + 1)))).

(** [difference > threshold * sigma] at pixel [(c, r)] *)
Definition exceeds (hits : list Hit) (n_pixel filter_size : Z * Z)
    (threshold : float) (c r : Z) : bool :=
  gt_int (difference hits n_pixel filter_size c r)
         (fmul threshold (sigma hits n_pixel filter_size)).

Definition mask_spec (hits : list Hit) (n_pixel filter_size : Z * Z)
    (threshold : float) : array2 bool :=
  tabulate2 n_pixel
    (fun i j => exceeds hits n_pixel filter_size threshold (i + 1) (j + 1)).

Lemma pixel_mask_arrays_spec chunks n_pixel threshold filter_size :
  chunks ≠ [] →
  Forall (on_grid n_pixel) (concat chunks) →
  Z.of_nat (length (concat chunks)) < 2^31 →
  0 < fst n_pixel → 0 < snd n_pixel →
  0 < fst filter_size → 0 < snd filter_size →
  pixel_mask_arrays chunks n_pixel threshold filter_size
  = Ok (occupancy_array (concat chunks) n_pixel,
        mask_spec (concat chunks) n_pixel filter_size threshold).
Proof.
  intros Hne Hgrid Hlen Hnc Hnr Hfc Hfr. unfold pixel_mask_arrays.
  rewrite accumulate_occupancy_none by done. simpl.
  fold (occupancy_array (concat chunks) n_pixel).
  assert (Hcast : map2d astype_int32 (occupancy_array (concat chunks) n_pixel)
                  = occupancy_array (concat chunks) n_pixel).
  { unfold occupancy_array. rewrite map2d_tabulate2.
    apply tabulate2_ext. intros c r _. apply astype_int32_small.
    pose proof (occupancy_of_bounds (concat chunks) (c + 1) (r + 1)). lia. }
  rewrite Hcast. unfold median_filter.
  rewrite decide_False by lia. rewrite decide_True by done.
  simpl. f_equal. f_equal.
  unfold noisy_pixels_of, mask_spec.
  assert (Hdiff :
    zip2d Z.sub (occupancy_array (concat chunks) n_pixel)
      (tabulate2 (shape_of (occupancy_array (concat chunks) n_pixel))
         (median_at (occupancy_array (concat chunks) n_pixel) filter_size))
    = tabulate2 n_pixel
        (fun i j => difference (concat chunks) n_pixel filter_size (i + 1) (j + 1))).
  { unfold occupancy_array at 2. rewrite shape_of_tabulate2 by lia.
    unfold occupancy_array at 1. rewrite zip2d_tabulate2.
    apply tabulate2_ext. intros c r _. unfold difference, smoothed.
    by replace (c + 1 - 1) with c by lia; replace (r + 1 - 1) with r by lia. }
  rewrite Hdiff. rewrite map2d_tabulate2. reflexivity.
Qed.

End NoiseMaskerSpec.

Section NoiseMaskerFile.
Context `{FloatOps}.

(** What [generate_pixel_mask] leaves at its output path on success. *)
Definition mask_file (pixel_mask_name : string) (occupancy : array2 Z)
    (mask : array2 bool) : H5File :=
  <[pixel_mask_name := BoolArray mask]>
    (<["HistOcc"%string := IntArray occupancy]> ∅).

Lemma write_mask_file fs path pixel_mask_name occupancy mask :
  pixel_mask_name ≠ "HistOcc"%string →
  with_open_write fs path
    (let* _ := create "HistOcc" (IntArray occupancy) in
     let* _ := create pixel_mask_name (BoolArray mask) in
     w_ret path)
  = (<[path := mask_file pixel_mask_name occupancy mask]> fs, Ok path).
Proof.
  intros Hname. unfold with_open_write, w_bind, create, create_node, w_ret.
  rewrite lookup_empty. rewrite lookup_insert_ne by done.
  by rewrite lookup_empty.
Qed.

Lemma grid_positive n_pixel hits :
  hits ≠ [] → Forall (on_grid n_pixel) hits → 0 < fst n_pixel ∧ 0 < snd n_pixel.
Proof.
  destruct hits as [|h hits]; [done|]. intros _ Hgrid.
  apply Forall_cons in Hgrid as [[Hc Hr] _]. lia.
Qed.

(** On a well-formed table, [generate_pixel_mask] succeeds and writes the
    arrays of the specification. *)
Lemma generate_pixel_mask_result fs input_hits_file f hits n_pixel
    pixel_mask_name output_mask_file threshold filter_size chunk_size :
  fs !! input_hits_file = Some f →
  f !! "Hits"%string = Some (HitTable hits) →
  hits ≠ [] →
  Forall (on_grid n_pixel) hits →
  Z.of_nat (length hits) < 2^31 →
  0 < fst filter_size → 0 < snd filter_size →
  pixel_mask_name ≠ "HistOcc"%string →
  generate_pixel_mask fs input_hits_file n_pixel pixel_mask_name
    output_mask_file threshold filter_size chunk_size
  = (let out := default (default_mask_file input_hits_file pixel_mask_name)
                  output_mask_file in
     (<[out := mask_file pixel_mask_name (occupancy_array hits n_pixel)
                 (mask_spec hits n_pixel filter_size threshold)]> fs,
      Ok out)).
Proof.
  intros Hfile Htable Hne Hgrid Hlen Hfc Hfr Hname.
  destruct (grid_positive n_pixel hits Hne Hgrid) as [Hnc Hnr].
  unfold generate_pixel_mask, open_read, read_hits.
  rewrite Hfile. simpl. rewrite Htable. simpl.
  rewrite pixel_mask_arrays_spec;
    rewrite ?data_aligned_at_events_concat; try done.
  - by apply write_mask_file.
  - by apply data_aligned_at_events_cons.
Qed.

(** C1. For a hit table with at least one hit (all hits on the pixel grid,
    fewer than 2^31 of them, a positive filter size), [generate_pixel_mask]
    writes a mask whose entry for pixel (c, r) is exactly the outcome of
    [occupancy(c, r) - smoothed(c, r) > threshold * sigma]: occupancy is
    the number of hits with that column and row, stored at
    (c - 1, r - 1); smoothed is the zero-padded median filter of the
    occupancy; sigma is the standard deviation of the difference over all
    pixels.  A pixel is flagged if and only if the comparison holds. *)
Theorem generate_pixel_mask_flags fs input_hits_file f hits n_pixel
    pixel_mask_name output_mask_file threshold filter_size chunk_size :
  fs !! input_hits_file = Some f →
  f !! "Hits"%string = Some (HitTable hits) →
  hits ≠ [] →
  Forall (on_grid n_pixel) hits →
  Z.of_nat (length hits) < 2^31 →
  0 < fst filter_size → 0 < snd filter_size →
  pixel_mask_name ≠ "HistOcc"%string →
  ∃ fs' out occupancy mask,
    generate_pixel_mask fs input_hits_file n_pixel pixel_mask_name
      output_mask_file threshold filter_size chunk_size = (fs', Ok out)
    ∧ fs' !! out ≫= (.!! pixel_mask_name) = Some (BoolArray mask)
    ∧ fs' !! out ≫= (.!! "HistOcc"%string) = Some (IntArray occupancy)
    ∧ ∀ c r, 1 ≤ c ≤ fst n_pixel → 1 ≤ r ≤ snd n_pixel →
        get2 occupancy (c - 1) (r - 1) = Some (occupancy_of hits c r)
        ∧ get2 mask (c - 1) (r - 1)
          = Some (gt_int (occupancy_of hits c r
                          - smoothed hits n_pixel filter_size c r)
                         (fmul threshold (sigma hits n_pixel filter_size)))
        ∧ (get2 mask (c - 1) (r - 1) = Some true
           ↔ exceeds hits n_pixel filter_size threshold c r = true).
Proof.
  intros Hfile Htable Hne Hgrid Hlen Hfc Hfr Hname.
  eexists _, _, _, _. split.
  { by eapply generate_pixel_mask_result. }
  simpl. rewrite lookup_insert_eq. simpl. unfold mask_file.
  rewrite lookup_insert_eq, lookup_insert_ne, lookup_insert_eq by done.
  split; [done|]. split; [done|].
  intros c r Hc Hr.
  assert (Hin : in_shape n_pixel (c - 1) (r - 1)) by (unfold in_shape; lia).
  unfold occupancy_array, mask_spec. rewrite !get2_tabulate2 by done.
  replace (c - 1 + 1) with c by lia. replace (r - 1 + 1) with r by lia.
  split; [done|]. split; [done|].
  split; [by intros [= ->] | by intros ->].
Qed.

End NoiseMaskerFile.

(** ** Default output names differ from the input name *)

Lemma rfind_from_spec i c l found :
  rfind_from i c l found = found
  ∨ ∃ k : nat, rfind_from i c l found = i + Z.of_nat k ∧ l !! k = Some c.
Proof.
  revert i found. induction l as [|x l IH]; intros i found; simpl; [by left|].
  destruct (IH (i + 1) (if decide (x = c) then i else found)) as [E|(k & E & Hk)].
  - rewrite E. case_decide; [|by left].
    right. exists 0%nat. split; [lia | by subst].
  - right. exists (S k). split; [lia | done].
Qed.

Lemma splitext_list_spec p :
  fst (splitext_list p) ++ snd (splitext_list p) = p
  ∧ (snd (splitext_list p) = []
     ∨ ∃ t, snd (splitext_list p) = "."%char :: t).
Proof.
  unfold splitext_list.
  case_decide as Hdot; [|by rewrite app_nil_r; auto].
  destruct (existsb _ _); [|by rewrite app_nil_r; auto].
  simpl. split; [apply take_drop|]. right.
  destruct (rfind_from_spec 0 "." p (-1)) as [E|(k & E & Hk)].
  - unfold rfind in Hdot. rewrite E in Hdot.
    pose proof (rfind_from_spec 0 "/" p (-1)) as [E'|(k' & E' & _)];
      unfold rfind in Hdot; rewrite E' in Hdot; lia.
  - unfold rfind. rewrite E. replace (Z.to_nat (0 + Z.of_nat k)) with k by lia.
    exists (drop (S k) p). by apply drop_S.
Qed.

Lemma list_ascii_of_string_app s1 s2 :
  list_ascii_of_string (s1 +:+ s2)
  = list_ascii_of_string s1 ++ list_ascii_of_string s2.
Proof. induction s1 as [|c s1 IH]; simpl; [done | by rewrite IH]. Qed.

(** A suffix that starts with an underscore never restores the name. *)
Lemma splitext_root_suffix p suffix :
  (fst (splitext p) +:+ "_" +:+ suffix)%string ≠ p.
Proof.
  intros E. apply (f_equal list_ascii_of_string) in E.
  rewrite list_ascii_of_string_app in E.
  unfold splitext in E.
  destruct (splitext_list_spec (list_ascii_of_string p)) as [Happ Hext].
  destruct (splitext_list (list_ascii_of_string p)) as [root ext].
  simpl in *. rewrite list_ascii_of_string_of_list_ascii in E.
  rewrite <- Happ in E. apply app_inv_head in E.
  destruct Hext as [-> | [t ->]]; simpl in E; discriminate.
Qed.

Lemma default_mask_file_fresh input_hits_file pixel_mask_name :
  default_mask_file input_hits_file pixel_mask_name ≠ input_hits_file.
Proof. apply splitext_root_suffix. Qed.

Lemma default_hits_file_fresh input_hits_file :
  default_hits_file input_hits_file ≠ input_hits_file.
Proof. apply (splitext_root_suffix _ "noisy_pixels.h5"). Qed.

Lemma default_cluster_file_fresh input_hits_file :
  default_cluster_file input_hits_file ≠ input_hits_file.
Proof. apply (splitext_root_suffix _ "cluster.h5"). Qed.

(** ** What a run reads and what it writes *)

Lemma with_open_write_frame {A} fs path (body : Writer A) p :
  p ≠ path → fst (with_open_write fs path body) !! p = fs !! p.
Proof.
  intros Hp. unfold with_open_write. destruct (body ∅) as [f r]. simpl.
  by rewrite lookup_insert_ne.
Qed.

Lemma with_open_write_file {A} fs path (body : Writer A) :
  fst (with_open_write fs path body) !! path = Some (fst (body ∅)).
Proof.
  unfold with_open_write. destruct (body ∅) as [f r]. simpl.
  by rewrite lookup_insert_eq.
Qed.

Lemma with_open_write_result {A} fs path (body : Writer A) :
  snd (with_open_write fs path body) = snd (body ∅).
Proof. unfold with_open_write. by destruct (body ∅). Qed.

Section NoiseMaskerFrame.
Context `{FloatOps}.

(** [generate_pixel_mask] writes at its output path and nowhere else. *)
Lemma generate_pixel_mask_frame fs input_hits_file n_pixel pixel_mask_name
    output_mask_file threshold filter_size chunk_size p :
  p ≠ default (default_mask_file input_hits_file pixel_mask_name) output_mask_file →
  fst (generate_pixel_mask fs input_hits_file n_pixel pixel_mask_name
         output_mask_file threshold filter_size chunk_size) !! p = fs !! p.
Proof.
  intros Hp. unfold generate_pixel_mask.
  destruct (_ ≫= _) as [[occupancy mask]|e]; [|done].
  by apply with_open_write_frame.
Qed.

(** Its result is its output path. *)
Lemma generate_pixel_mask_path fs input_hits_file n_pixel pixel_mask_name
    output_mask_file threshold filter_size chunk_size out :
  snd (generate_pixel_mask fs input_hits_file n_pixel pixel_mask_name
         output_mask_file threshold filter_size chunk_size) = Ok out →
  out = default (default_mask_file input_hits_file pixel_mask_name) output_mask_file.
Proof.
  unfold generate_pixel_mask.
  destruct (_ ≫= _) as [[occupancy mask]|e]; [|done].
  rewrite with_open_write_result.
  unfold w_bind, create, w_ret.
  destruct (create_node ∅ "HistOcc" _) as [f1|]; [|done].
  destruct (create_node f1 pixel_mask_name _) as [f2|]; [|done].
  simpl. congruence.
Qed.

(** [remove_noisy_pixels] writes the mask file and its output file. *)
Lemma remove_noisy_pixels_frame fs input_hits_file n_pixel output_hits_file
    threshold filter_size chunk_size p :
  p ≠ default_mask_file input_hits_file "DisabledPixelMask" →
  p ≠ default (default_hits_file input_hits_file) output_hits_file →
  fst (remove_noisy_pixels fs input_hits_file n_pixel output_hits_file
         threshold filter_size chunk_size) !! p = fs !! p.
Proof.
  intros Hmask Hout. unfold remove_noisy_pixels.
  pose proof (generate_pixel_mask_frame fs input_hits_file n_pixel
                "DisabledPixelMask" None threshold filter_size chunk_size p Hmask)
    as Hgen.
  destruct (generate_pixel_mask _ _ _ _ _ _ _ _) as [fs1 [output_mask_file|e]];
    simpl in Hgen; [|done].
  destruct (_ ≫= _) as [[[[pixel_mask occupancy] masked] input_file_h5]|e];
    [|done].
  case_decide; [done|].
  by rewrite with_open_write_frame.
Qed.

(** [remove_noisy_pixels] never changes the hit file it reads. *)
Lemma remove_noisy_pixels_input fs input_hits_file n_pixel output_hits_file
    threshold filter_size chunk_size :
  fst (remove_noisy_pixels fs input_hits_file n_pixel output_hits_file
         threshold filter_size chunk_size) !! input_hits_file
  = fs !! input_hits_file.
Proof.
  unfold remove_noisy_pixels.
  pose proof (generate_pixel_mask_frame fs input_hits_file n_pixel
                "DisabledPixelMask" None threshold filter_size chunk_size
                input_hits_file
                (not_eq_sym (default_mask_file_fresh _ _))) as Hgen.
  destruct (generate_pixel_mask _ _ _ _ _ _ _ _) as [fs1 [output_mask_file|e]];
    simpl in Hgen; [|done].
  destruct (_ ≫= _) as [[[[pixel_mask occupancy] masked] input_file_h5]|e];
    [|done].
  case_decide as Hsame; [done|].
  rewrite with_open_write_frame; [done | congruence].
Qed.

(** C6. Two runs of [generate_pixel_mask] with the same parameters, from
    any two states of the file system that hold the same input hit file,
    end alike and leave the same output file: the same PixelMask (and
    the same occupancy) both times. *)
Theorem generate_pixel_mask_same_mask (fs1 fs2 : FileSystem) input_hits_file
    n_pixel pixel_mask_name output_mask_file threshold filter_size chunk_size :
  fs1 !! input_hits_file = fs2 !! input_hits_file →
  let run fs := generate_pixel_mask fs input_hits_file n_pixel pixel_mask_name
                  output_mask_file threshold filter_size chunk_size in
  snd (run fs1) = snd (run fs2)
  ∧ ∀ out, snd (run fs1) = Ok out →
      fst (run fs1) !! out = fst (run fs2) !! out
      ∧ fst (run fs1) !! out ≫= (.!! pixel_mask_name)
        = fst (run fs2) !! out ≫= (.!! pixel_mask_name).
Proof.
  intros Hsame run.
  assert (Hfile : ∀ out, snd (run fs1) = Ok out →
                         fst (run fs1) !! out = fst (run fs2) !! out).
  { intros out Hout. subst run. cbv beta in *.
    pose proof (generate_pixel_mask_path _ _ _ _ _ _ _ _ _ Hout) as ->.
    unfold generate_pixel_mask, open_read in *. rewrite Hsame in *.
    destruct (_ ≫= _) as [[occupancy mask]|e]; [|done].
    by rewrite !with_open_write_file. }
  split.
  - subst run. cbv beta. unfold generate_pixel_mask, open_read.
    rewrite Hsame.
    destruct (_ ≫= _) as [[occupancy mask]|e]; [|done].
    by rewrite !with_open_write_result.
  - intros out Hout. split; [by apply Hfile | by rewrite Hfile].
Qed.

End NoiseMaskerFrame.

(** ** Index arithmetic of [remove_noisy_pixels] *)

Lemma true_indices_spec i l x :
  x ∈ true_indices i l ↔ ∃ k : nat, x = i + Z.of_nat k ∧ l !! k = Some true.
Proof.
  revert i. induction l as [|b l IH]; intros i; simpl.
  - split; [by intros ?%elem_of_nil | by intros (k & _ & ?)].
  - rewrite elem_of_app, IH. split.
    + intros [Hx | (k & -> & Hk)].
      * destruct b; [|by apply elem_of_nil in Hx].
        apply list_elem_of_singleton in Hx as ->.
        exists 0%nat. split; [lia | done].
      * exists (S k). split; [lia | done].
    + intros ([|k] & -> & Hk); simpl in Hk.
      * injection Hk as ->. left. replace (i + Z.of_nat 0) with i by lia.
        by apply list_elem_of_singleton.
      * right. exists k. split; [lia | done].
Qed.

Lemma nonzero_from_spec c0 (m : array2 bool) c r :
  (c, r) ∈ nonzero_from c0 m
  ↔ ∃ k : nat, c = c0 + Z.of_nat k
      ∧ ∃ l, m !! k = Some l ∧ r ∈ true_indices 0 l.
Proof.
  revert c0. induction m as [|l0 m IH]; intros c0; simpl.
  - split; [by intros ?%elem_of_nil | by intros (k & _ & l & ? & _)].
  - rewrite elem_of_app, IH, map_is_fmap, list_elem_of_fmap. split.
    + intros [(y & [= -> ->] & Hy) | (k & -> & l & Hl & Hr)].
      * exists 0%nat. split; [lia|]. by exists l0.
      * exists (S k). split; [lia|]. by exists l.
    + intros ([|k] & -> & l & Hl & Hr); simpl in Hl.
      * injection Hl as ->. left. exists r. split; [f_equal; lia | done].
      * right. exists k. split; [lia|]. by exists l.
Qed.

(** [np.nonzero] lists exactly the flagged entries. *)
Lemma nonzero_spec (m : array2 bool) c r :
  (c, r) ∈ nonzero m ↔ get2 m c r = Some true.
Proof.
  unfold nonzero, get2. rewrite nonzero_from_spec. split.
  - intros (k & -> & l & Hl & Hr).
    apply true_indices_spec in Hr as (j & -> & Hj).
    rewrite decide_True by lia.
    replace (Z.to_nat (0 + Z.of_nat k)) with k by lia. rewrite Hl. simpl.
    by replace (Z.to_nat (0 + Z.of_nat j)) with j by lia.
  - case_decide as Hpos; [|done].
    destruct (m !! Z.to_nat c) as [l|] eqn:Hl; [simpl|done].
    intros Hr. exists (Z.to_nat c). split; [lia|].
    exists l. split; [done|].
    apply true_indices_spec. exists (Z.to_nat r). split; [lia | done].
Qed.

Lemma get2_tabulate2_Some {A} shape (f : Z → Z → A) c r x :
  get2 (tabulate2 shape f) c r = Some x → in_shape shape c r.
Proof.
  intros Hget. destruct (decide (in_shape shape c r)) as [|Hout]; [done|].
  by rewrite get2_tabulate2_outside in Hget.
Qed.

Definition ravel (dims : Z * Z) (p : Z * Z) : Z := fst p * snd dims + snd p.

Lemma ravel_multi_index_ok ps dims :
  Forall (fun p => in_shape dims (fst p) (snd p)) ps →
  ravel_multi_index ps dims = Ok (map (ravel dims) ps).
Proof.
  induction 1 as [|p ps Hp _ IH]; simpl; [done|].
  unfold ravel_index, in_shapeb.
  rewrite bool_decide_eq_true_2 by done. simpl. by rewrite IH.
Qed.

(** Inside the array, the flat index determines the pixel. *)
Lemma ravel_inj dims p q :
  in_shape dims (fst p) (snd p) → in_shape dims (fst q) (snd q) →
  ravel dims p = ravel dims q → p = q.
Proof.
  destruct p as [c r], q as [c' r']. unfold ravel, in_shape. simpl.
  intros [Hc Hr] [Hc' Hr'] E.
  assert (c = c') by nia. subst. f_equal. lia.
Qed.

Lemma boolean_index_in1d_invert (hits : list Hit) dims masked :
  boolean_index hits (in1d_invert (map (fun h => ravel dims (pixel_index h)) hits) masked)
  = filter (fun h => ravel dims (pixel_index h) ∉ masked) hits.
Proof.
  unfold boolean_index, in1d_invert.
  induction hits as [|h hits IH]; [done|].
  simpl. rewrite !filter_cons. simpl.
  destruct (decide (ravel dims (pixel_index h) ∉ masked)) as [Hk|Hk].
  - rewrite bool_decide_eq_true_2 by done.
    rewrite decide_True by done. simpl. by f_equal.
  - rewrite bool_decide_eq_false_2 by done.
    rewrite decide_False by done. done.
Qed.

(** ** The hits kept by [remove_noisy_pixels] *)

Lemma ravel_hits_ok hits n_pixel :
  Forall (on_grid n_pixel) hits →
  ravel_multi_index (map pixel_index hits) n_pixel
  = Ok (map (fun h => ravel n_pixel (pixel_index h)) hits).
Proof.
  intros Hgrid. rewrite ravel_multi_index_ok.
  - by rewrite map_map.
  - rewrite map_is_fmap. apply Forall_fmap.
    eapply Forall_impl; [exact Hgrid|]. by intros h Hh.
Qed.

Lemma select_not_noisy_spec masked n_pixel chunks (f : H5File) old :
  Forall (on_grid n_pixel) (concat chunks) →
  f !! "Hits"%string = Some (HitTable old) →
  select_not_noisy masked n_pixel chunks f
  = (<["Hits"%string :=
         HitTable (old ++ filter (fun h => ravel n_pixel (pixel_index h) ∉ masked)
                            (concat chunks))]> f,
     Ok tt).
Proof.
  revert f old. induction chunks as [|hits rest IH]; intros f old Hgrid Hold.
  - simpl. unfold w_ret. rewrite app_nil_r. by rewrite insert_id.
  - simpl in Hgrid. apply Forall_app in Hgrid as [Hhits Hrest].
    cbn [select_not_noisy]. unfold w_bind at 1, w_lift.
    rewrite ravel_hits_ok by done.
    unfold w_bind, append_hits. rewrite Hold.
    rewrite boolean_index_in1d_invert.
    erewrite IH; [|done|by rewrite lookup_insert_eq].
    rewrite insert_insert_eq. simpl concat.
    by rewrite filter_app, (assoc_L (++)).
Qed.

Lemma filter_ext_Forall {A} (P Q : A → Prop)
    `{!∀ x, Decision (P x), !∀ x, Decision (Q x)} (l : list A) :
  Forall (fun x => P x ↔ Q x) l → filter P l = filter Q l.
Proof.
  induction 1 as [|x l Hx _ IH]; [done|].
  rewrite !filter_cons, IH.
  destruct (decide (P x)), (decide (Q x)); tauto || done.
Qed.

Lemma filter_all {A} (P : A → Prop) `{!∀ x, Decision (P x)} (l : list A) :
  Forall P l → filter P l = l.
Proof.
  induction 1 as [|x l Hx _ IH]; [done|].
  by rewrite filter_cons_True, IH.
Qed.

(** A hit is dropped exactly when its pixel is flagged. *)
Lemma not_masked_iff (mask : array2 bool) n_pixel f h :
  mask = tabulate2 n_pixel f →
  on_grid n_pixel h →
  ravel n_pixel (pixel_index h) ∉ map (ravel n_pixel) (nonzero mask)
  ↔ get2 mask (column h - 1) (row h - 1) ≠ Some true.
Proof.
  intros Hmask Hh. rewrite <- nonzero_spec.
  rewrite map_is_fmap, list_elem_of_fmap. split.
  - intros Hnot Hin. apply Hnot. by exists (pixel_index h).
  - intros Hnot (q & Hq & Hin). apply Hnot.
    destruct q as [c r].
    assert (Hshape : in_shape n_pixel c r).
    { apply nonzero_spec in Hin. subst mask.
      by apply get2_tabulate2_Some in Hin. }
    apply ravel_inj in Hq; [|done..].
    unfold pixel_index in Hq. by injection Hq as -> ->.
Qed.

(** The end of the [with] block of [remove_noisy_pixels], lines 154-160. *)
Lemma write_tail kept occupancy pixel_mask (out : string) :
  (let* _ := create "HistOcc" (IntArray occupancy) in
   let* _ := create "DisabledPixelMask" (BoolArray pixel_mask) in
   w_ret out) (<["Hits"%string := HitTable kept]> ∅)
  = (<["DisabledPixelMask"%string := BoolArray pixel_mask]>
       (<["HistOcc"%string := IntArray occupancy]>
          (<["Hits"%string := HitTable kept]> ∅)),
     Ok out).
Proof.
  unfold w_bind, create, create_node, w_ret.
  rewrite lookup_insert_ne, lookup_empty by done.
  rewrite lookup_insert_ne, lookup_insert_ne, lookup_empty by done.
  done.
Qed.

Section RemoveNoisyPixels.
Context `{FloatOps}.

(** The hits whose pixel is not flagged, in table order. *)
Definition not_flagged (mask : array2 bool) (hits : list Hit) : list Hit :=
  filter (fun h => get2 mask (column h - 1) (row h - 1) ≠ Some true) hits.

(** C10. [remove_noisy_pixels] generates the DisabledPixelMask of the
    input table, returns its output path and leaves there a Hits table
    holding exactly the input hits whose (column - 1, row - 1) entry of
    that mask is not flagged, in their original order; when the mask
    flags nothing, that table is the input table. *)
Theorem remove_noisy_pixels_keeps_unflagged fs input_hits_file f hits n_pixel
    output_hits_file threshold filter_size chunk_size :
  fs !! input_hits_file = Some f →
  f !! "Hits"%string = Some (HitTable hits) →
  hits ≠ [] →
  Forall (on_grid n_pixel) hits →
  Z.of_nat (length hits) < 2^31 →
  0 < fst filter_size → 0 < snd filter_size →
  default (default_hits_file input_hits_file) output_hits_file ≠ input_hits_file →
  ∃ fs1 mask_path mask,
    generate_pixel_mask fs input_hits_file n_pixel "DisabledPixelMask" None
      threshold filter_size chunk_size = (fs1, Ok mask_path)
    ∧ fs1 !! mask_path ≫= (.!! "DisabledPixelMask"%string) = Some (BoolArray mask)
    ∧ let out := default (default_hits_file input_hits_file) output_hits_file in
      let run := remove_noisy_pixels fs input_hits_file n_pixel output_hits_file
                   threshold filter_size chunk_size in
      fst run !! out ≫= (.!! "Hits"%string)
      = Some (HitTable (not_flagged mask hits))
      ∧ snd run = Ok out
      ∧ (nonzero mask = [] → not_flagged mask hits = hits).
Proof.
  intros Hfile Htable Hne Hgrid Hlen Hfc Hfr Hout.
  pose proof (generate_pixel_mask_result fs input_hits_file f hits n_pixel
                "DisabledPixelMask" None threshold filter_size chunk_size
                Hfile Htable Hne Hgrid Hlen Hfc Hfr ltac:(done)) as Hgen.
  simpl in Hgen.
  set (mask_path := default_mask_file input_hits_file "DisabledPixelMask") in *.
  set (mask := mask_spec hits n_pixel filter_size threshold) in *.
  set (occ := occupancy_array hits n_pixel) in *.
  exists (<[mask_path := mask_file "DisabledPixelMask" occ mask]> fs), mask_path, mask.
  split; [done|]. split.
  { rewrite lookup_insert_eq. simpl. unfold mask_file. by rewrite lookup_insert_eq. }
  intros out run.
  assert (Hkeep : filter (fun h => ravel n_pixel (pixel_index h)
                                   ∉ map (ravel n_pixel) (nonzero mask)) hits
                  = not_flagged mask hits).
  { unfold not_flagged. apply filter_ext_Forall.
    eapply Forall_impl; [exact Hgrid|]. intros h Hh. simpl.
    by eapply not_masked_iff. }
  assert (Hrun : run =
    with_open_write (<[mask_path := mask_file "DisabledPixelMask" occ mask]> fs) out
      (let* hits := w_lift (read_hits f) in
       let* _ := create "Hits" (HitTable []) in
       let* _ := select_not_noisy (map (ravel n_pixel) (nonzero mask)) n_pixel
                   (data_aligned_at_events hits chunk_size) in
       let* _ := create "HistOcc" (IntArray occ) in
       let* _ := create "DisabledPixelMask" (BoolArray mask) in
       w_ret out)).
  { subst run. unfold remove_noisy_pixels. rewrite Hgen.
    unfold open_read. rewrite lookup_insert_eq. simpl.
    unfold read_mask, read_occupancy, mask_file.
    rewrite lookup_insert_eq. simpl.
    rewrite (lookup_insert_ne _ "DisabledPixelMask"%string "HistOcc"%string)
      by discriminate.
    rewrite lookup_insert_eq. simpl.
    assert (Hravel :
      (if decide (nonzero mask = []) then Ok []
       else ravel_multi_index (nonzero mask) n_pixel)
      = Ok (map (ravel n_pixel) (nonzero mask))).
    { case_decide as Hnil; [by rewrite Hnil|].
      apply ravel_multi_index_ok. apply Forall_forall.
      intros [c r] Hin%nonzero_spec. simpl.
      by apply get2_tabulate2_Some in Hin. }
    rewrite Hravel. simpl.
    rewrite lookup_insert_ne
      by (subst mask_path; apply default_mask_file_fresh).
    rewrite Hfile. simpl. fold out. by rewrite decide_False. }
  assert (Hbody :
    ∀ rest : Writer string,
    (let* hits := w_lift (read_hits f) in
     let* _ := create "Hits" (HitTable []) in
     let* _ := select_not_noisy (map (ravel n_pixel) (nonzero mask)) n_pixel
                 (data_aligned_at_events hits chunk_size) in
     rest) ∅
    = rest (<["Hits"%string := HitTable (not_flagged mask hits)]> ∅)).
  { intros rest. unfold w_bind at 1, w_lift, read_hits. rewrite Htable.
    unfold w_bind at 1, create, create_node. rewrite lookup_empty.
    unfold w_bind at 1.
    erewrite select_not_noisy_spec;
      [|by rewrite data_aligned_at_events_concat | by rewrite lookup_insert_eq].
    rewrite data_aligned_at_events_concat, Hkeep. simpl.
    by rewrite insert_insert_eq. }
  rewrite Hrun, with_open_write_file, with_open_write_result, Hbody.
  rewrite write_tail.
  split; [|split].
  - simpl. by rewrite lookup_insert_ne, lookup_insert_ne, lookup_insert_eq.
  - done.
  - intros Hnil. rewrite <- Hkeep, Hnil. simpl.
    apply filter_all, Forall_forall. intros h _. apply not_elem_of_nil.
Qed.

End RemoveNoisyPixels.

(** ** Event numbers in order *)

(** A sequence of event numbers in which no entry is followed by a
    smaller one. *)
Definition non_decreasing (l : list Z) : Prop := Sorted Z.le l.

(** Event numbers as the data model has them: non-negative ['<i8']. *)
Definition event_range (e : Z) : Prop := 0 ≤ e < 2^63.

Lemma wrap_int64_small x : - 2^63 ≤ x < 2^63 → wrap_int64 x = x.
Proof. intros Hx. unfold wrap_int64. rewrite Z.mod_small; lia. Qed.

(** On event numbers in range, the check of the source is exact. *)
Lemma all_diff_nonneg_sorted l :
  Forall event_range l →
  all_diff_nonneg l = true ↔ non_decreasing l.
Proof.
  unfold all_diff_nonneg, np_diff, non_decreasing.
  induction 1 as [|a l Ha Hl IH]; [by split; [constructor|]|].
  destruct l as [|b l]; [by split; [repeat constructor|]|].
  apply Forall_cons in Hl as Hb. destruct Hb as [Hb _].
  cbn [tail zip_with forallb] in *. unfold event_range in Ha, Hb.
  rewrite andb_true_iff, bool_decide_eq_true, wrap_int64_small by lia.
  rewrite IH. split.
  - intros [Hab Hs]. constructor; [done|]. constructor. lia.
  - intros Hs. inversion Hs as [|? ? Hs' Hhd]; subst.
    inversion Hhd; subst. split; [lia | done].
Qed.

Lemma non_decreasing_strongly l : non_decreasing l ↔ StronglySorted Z.le l.
Proof.
  split; [apply Sorted_StronglySorted; apply _ | apply StronglySorted_Sorted].
Qed.

(** ** The loop of [cluster_hits] *)

Section PixelClustererLoop.
Context `{Clusterizer}.

(** The clusterizer objects a run can hold: the one built for the charge
    bounds, and its successors from chunk to chunk. *)
Inductive configured (min_hit_charge : Z) (max_hit_charge : option Z)
    : clusterizer → Prop :=
  | configured_new cd rd fd :
      configured min_hit_charge max_hit_charge
        (HitClusterizer cd rd fd min_hit_charge max_hit_charge)
  | configured_next cz hits noisy_pixels disabled_pixels cz' out :
      configured min_hit_charge max_hit_charge cz →
      clusterizer_cluster_hits cz hits noisy_pixels disabled_pixels = Ok (cz', out) →
      configured min_hit_charge max_hit_charge cz'.

(** One iteration that went through: both checks passed, and [cluster] is
    what the clusterizer returned for [hits]. *)
Definition clustered (min_hit_charge : Z) (max_hit_charge : option Z)
    (noisy_pixels disabled_pixels : option (list (Z * Z)))
    (hits : list Hit) (cluster : list Cluster) : Prop :=
  all_diff_nonneg (map event_number hits) = true
  ∧ all_diff_nonneg (map cl_event_number cluster) = true
  ∧ ∃ cz cz' cluster_hits,
      configured min_hit_charge max_hit_charge cz
      ∧ clusterizer_cluster_hits cz hits noisy_pixels disabled_pixels
        = Ok (cz', (cluster_hits, cluster)).

(** A completed loop appended, chunk by chunk, what the clusterizer
    returned, and nothing else. *)
Lemma cluster_chunks_ok min_hit_charge max_hit_charge cz noisy_pixels
    disabled_pixels chunks (f f' : H5File) old :
  configured min_hit_charge max_hit_charge cz →
  f !! "Cluster"%string = Some (ClusterTable old) →
  cluster_chunks cz noisy_pixels disabled_pixels chunks f = (f', Ok tt) →
  ∃ outs,
    f' = <["Cluster"%string := ClusterTable (old ++ concat outs)]> f
    ∧ Forall2 (clustered min_hit_charge max_hit_charge noisy_pixels disabled_pixels)
        chunks outs.
Proof.
  revert cz f old. induction chunks as [|hits rest IH]; intros cz f old Hcz Hold.
  - simpl. unfold w_ret. intros [= <-]. exists [].
    split; [|constructor]. simpl. by rewrite app_nil_r, insert_id.
  - cbn [cluster_chunks].
    destruct (all_diff_nonneg (map event_number hits)) eqn:Hhits; simpl; [|done].
    unfold w_bind at 1, w_lift.
    destruct (clusterizer_cluster_hits cz hits noisy_pixels disabled_pixels)
      as [[cz' [ch cluster]]|e] eqn:Hcall; [|done].
    destruct (all_diff_nonneg (map cl_event_number cluster)) eqn:Hcl; simpl; [|done].
    unfold w_bind at 1, append_clusters. rewrite Hold.
    intros Hrest.
    eapply (IH cz' _ (old ++ cluster)) in Hrest
      as (outs & -> & Houts);
      [| by econstructor | by rewrite lookup_insert_eq].
    exists (cluster :: outs). split.
    + rewrite insert_insert_eq. simpl. by rewrite (assoc_L (++)).
    + constructor; [|done]. repeat split; [done..|]. by exists cz, cz', ch.
Qed.

(** A loop that meets a chunk with a decreasing event number stops there:
    what the earlier chunks appended stays, nothing is added. *)
Lemma cluster_chunks_stop cz noisy_pixels disabled_pixels pre bad post
    (f fpre : H5File) :
  cluster_chunks cz noisy_pixels disabled_pixels pre f = (fpre, Ok tt) →
  all_diff_nonneg (map event_number bad) = false →
  cluster_chunks cz noisy_pixels disabled_pixels (pre ++ bad :: post) f
  = (fpre, Err RuntimeError).
Proof.
  revert cz f. induction pre as [|hits rest IH]; intros cz f.
  - simpl. unfold w_ret. intros [= <-] Hbad. by rewrite Hbad.
  - cbn [cluster_chunks app].
    destruct (all_diff_nonneg (map event_number hits)); simpl; [|done].
    unfold w_bind, w_lift.
    destruct (clusterizer_cluster_hits cz hits noisy_pixels disabled_pixels)
      as [[cz' [ch cluster]]|e]; [|done].
    destruct (all_diff_nonneg (map cl_event_number cluster)); simpl; [|done].
    destruct (append_clusters cluster f) as [f1 [[]|e]]; [|done].
    apply IH.
Qed.

End PixelClustererLoop.

(** ** [cluster_hits] on a file system *)

Section PixelClustererFile.
Context `{Clusterizer}.

(** Past the opening of the files, [cluster_hits] is its loop over the
    chunks of the hit table, started on an empty [Cluster] table. *)
Lemma cluster_hits_run fs input_hits_file f hits output_cluster_file
    disabled_file noisy_file disabled_pixels noisy_pixels
    min_hit_charge max_hit_charge cd rd fd chunk_size :
  fs !! input_hits_file = Some f →
  f !! "Hits"%string = Some (HitTable hits) →
  read_pixels fs disabled_file "DisabledPixelMask" = Ok disabled_pixels →
  read_pixels fs noisy_file "NoisyPixelMask" = Ok noisy_pixels →
  default (default_cluster_file input_hits_file) output_cluster_file
    ≠ input_hits_file →
  cluster_hits fs input_hits_file output_cluster_file disabled_file noisy_file
    min_hit_charge max_hit_charge cd rd fd chunk_size
  = (let out := default (default_cluster_file input_hits_file)
                  output_cluster_file in
     let loop := cluster_chunks
                   (HitClusterizer cd rd fd min_hit_charge max_hit_charge)
                   noisy_pixels disabled_pixels
                   (data_aligned_at_events hits chunk_size)
                   (<["Cluster"%string := ClusterTable []]> ∅) in
     (<[out := fst loop]> fs,
      match snd loop with Ok _ => Ok out | Err e => Err e end)).
Proof.
  intros Hfile Htable Hdis Hnoisy Hout. unfold cluster_hits, open_read.
  rewrite Hdis, Hnoisy, Hfile. simpl. rewrite decide_False by done.
  unfold with_open_write, w_bind, create, create_node, w_lift, read_hits, w_ret.
  rewrite lookup_empty, Htable.
  by destruct (cluster_chunks _ _ _ _ _) as [f' [[]|e]].
Qed.

(** What the clusterizer is relied upon for: the event number of a
    cluster is that of a hit of the chunk it was made from, and every
    surviving hit of the chunk finds its event among the clusters. *)
Definition clusterizer_contract : Prop :=
  ∀ min_hit_charge max_hit_charge cz hits noisy_pixels disabled_pixels
    cz' cluster_hits cluster,
    configured min_hit_charge max_hit_charge cz →
    clusterizer_cluster_hits cz hits noisy_pixels disabled_pixels
      = Ok (cz', (cluster_hits, cluster)) →
    (∀ c, c ∈ cluster → ∃ h, h ∈ hits ∧ cl_event_number c = event_number h)
    ∧ (∀ h, h ∈ hits →
         surviving min_hit_charge max_hit_charge noisy_pixels disabled_pixels h = true →
         event_number h ∈ map cl_event_number cluster).

Section Contract.
Hypothesis contract : clusterizer_contract.
Variables (min_hit_charge : Z) (max_hit_charge : option Z).
Variables (noisy_pixels disabled_pixels : option (list (Z * Z))).

Local Abbreviation clustered_chunk :=
  (clustered min_hit_charge max_hit_charge noisy_pixels disabled_pixels).

Lemma clustered_events_from_hits hits cluster x :
  clustered_chunk hits cluster →
  x ∈ map cl_event_number cluster → x ∈ map event_number hits.
Proof.
  intros (_ & _ & cz & cz' & ch & Hcz & Hcall) Hx.
  rewrite map_is_fmap in *. apply list_elem_of_fmap in Hx as (c & -> & Hc).
  destruct (contract _ _ _ _ _ _ _ _ _ Hcz Hcall) as [Hfrom _].
  destruct (Hfrom c Hc) as (h & Hh & ->).
  apply list_elem_of_fmap. by exists h.
Qed.

Lemma clustered_all_events_from_hits chunks outs x :
  Forall2 clustered_chunk chunks outs →
  x ∈ map cl_event_number (concat outs) → x ∈ map event_number (concat chunks).
Proof.
  induction 1 as [|hits cluster chunks outs Hone _ IH]; [done|].
  simpl. rewrite !map_app, !elem_of_app.
  intros [Hx|Hx]; [left; by eapply clustered_events_from_hits | right; auto].
Qed.

Lemma clustered_sorted chunks outs :
  Forall2 clustered_chunk chunks outs →
  Forall event_range (map event_number (concat chunks)) →
  StronglySorted Z.le (map event_number (concat chunks)) →
  StronglySorted Z.le (map cl_event_number (concat outs)).
Proof.
  induction 1 as [|hits cluster chunks outs Hone Hrest IH]; [done|].
  simpl. rewrite !map_app. intros Hrange Hsorted.
  apply Forall_app in Hrange as [Hrange1 Hrange2].
  apply StronglySorted_app in Hsorted as (Hcross & _ & Hsorted2).
  apply StronglySorted_app_2.
  - intros x1 x2 Hx1 Hx2. apply Hcross.
    + by eapply clustered_events_from_hits.
    + by eapply clustered_all_events_from_hits.
  - apply non_decreasing_strongly, all_diff_nonneg_sorted.
    + apply Forall_forall. intros x Hx.
      rewrite Forall_forall in Hrange1. apply Hrange1.
      by eapply clustered_events_from_hits.
    + by destruct Hone as (_ & ? & _).
  - by apply IH.
Qed.

Lemma clustered_covers chunks outs h :
  Forall2 clustered_chunk chunks outs →
  h ∈ concat chunks →
  surviving min_hit_charge max_hit_charge noisy_pixels disabled_pixels h = true →
  event_number h ∈ map cl_event_number (concat outs).
Proof.
  induction 1 as [|hits cluster chunks outs Hone _ IH]; simpl.
  - by intros ?%elem_of_nil.
  - rewrite map_app, !elem_of_app. intros [Hh|Hh] Hs; [left | right; auto].
    destruct Hone as (_ & _ & cz & cz' & ch & Hcz & Hcall).
    destruct (contract _ _ _ _ _ _ _ _ _ Hcz Hcall) as [_ Hcov]. auto.
Qed.

End Contract.

(** What the loop makes of a clusterizer that keeps to that contract: on
    a hit table with non-decreasing event numbers in the non-negative
    range, a run of [cluster_hits] that goes through leaves a Cluster
    table with non-decreasing event numbers, in which every event number
    of a surviving hit (within the charge bounds, on no masked pixel)
    occurs.  The contract is a premise here; the sources do not hold the
    clusterizer. *)
Lemma cluster_hits_event_numbers fs fs' input_hits_file f hits out
    output_cluster_file disabled_file noisy_file disabled_pixels noisy_pixels
    min_hit_charge max_hit_charge cd rd fd chunk_size :
  clusterizer_contract →
  fs !! input_hits_file = Some f →
  f !! "Hits"%string = Some (HitTable hits) →
  read_pixels fs disabled_file "DisabledPixelMask" = Ok disabled_pixels →
  read_pixels fs noisy_file "NoisyPixelMask" = Ok noisy_pixels →
  Forall event_range (map event_number hits) →
  non_decreasing (map event_number hits) →
  cluster_hits fs input_hits_file output_cluster_file disabled_file noisy_file
    min_hit_charge max_hit_charge cd rd fd chunk_size = (fs', Ok out) →
  ∃ clusters,
    fs' !! out ≫= (.!! "Cluster"%string) = Some (ClusterTable clusters)
    ∧ non_decreasing (map cl_event_number clusters)
    ∧ ∀ h, h ∈ hits →
        surviving min_hit_charge max_hit_charge noisy_pixels disabled_pixels h = true →
        event_number h ∈ map cl_event_number clusters.
Proof.
  intros contract Hfile Htable Hdis Hnoisy Hrange Hsorted Hrun.
  destruct (decide (default (default_cluster_file input_hits_file)
                      output_cluster_file = input_hits_file)) as [Hsame|Hout].
  { revert Hrun. unfold cluster_hits, open_read.
    rewrite Hdis, Hnoisy, Hfile. simpl. by rewrite decide_True. }
  rewrite (cluster_hits_run _ _ _ _ _ _ _ _ _ _ _ _ _ _ _
             Hfile Htable Hdis Hnoisy Hout) in Hrun.
  cbv zeta in Hrun.
  destruct (cluster_chunks _ _ _ _ _) as [f' [[]|e]] eqn:Hloop;
    simpl in Hrun; [|done].
  injection Hrun as <- <-.
  eapply cluster_chunks_ok in Hloop as (outs & -> & Houts);
    [| apply configured_new | by rewrite lookup_insert_eq].
  exists (concat outs).
  rewrite <- (data_aligned_at_events_concat hits chunk_size) in Hrange, Hsorted.
  split; [|split].
  - rewrite lookup_insert_eq. simpl. by rewrite lookup_insert_eq.
  - apply non_decreasing_strongly. eapply clustered_sorted; [done..|].
    by apply non_decreasing_strongly.
  - intros h Hh Hs. eapply clustered_covers; [done..| |done].
    by rewrite data_aligned_at_events_concat.
Qed.

End PixelClustererFile.

Section PixelClustererRuns.
Context `{Clusterizer}.

Lemma read_pixels_ext (fs1 fs2 : FileSystem) mask_file name :
  (∀ p, mask_file = Some p → fs1 !! p = fs2 !! p) →
  read_pixels fs1 mask_file name = read_pixels fs2 mask_file name.
Proof.
  intros Hsame. destruct mask_file as [p|]; [|done].
  unfold read_pixels, open_read. by rewrite (Hsame p).
Qed.

(** [cluster_hits] writes at its output path and nowhere else. *)
Lemma cluster_hits_frame fs input_hits_file output_cluster_file disabled_file
    noisy_file min_hit_charge max_hit_charge cd rd fd chunk_size p :
  p ≠ default (default_cluster_file input_hits_file) output_cluster_file →
  fst (cluster_hits fs input_hits_file output_cluster_file disabled_file
         noisy_file min_hit_charge max_hit_charge cd rd fd chunk_size) !! p
  = fs !! p.
Proof.
  intros Hp. unfold cluster_hits.
  destruct (_ ≫= _) as [[[disabled_pixels noisy_pixels] input_file_h5]|e];
    [|done].
  case_decide; [done|]. by apply with_open_write_frame.
Qed.

(** It never changes the hit file it reads. *)
Lemma cluster_hits_input fs input_hits_file output_cluster_file disabled_file
    noisy_file min_hit_charge max_hit_charge cd rd fd chunk_size :
  fst (cluster_hits fs input_hits_file output_cluster_file disabled_file
         noisy_file min_hit_charge max_hit_charge cd rd fd chunk_size)
    !! input_hits_file
  = fs !! input_hits_file.
Proof.
  unfold cluster_hits.
  destruct (_ ≫= _) as [[[disabled_pixels noisy_pixels] input_file_h5]|e];
    [|done].
  case_decide as Hsame; [done|].
  apply with_open_write_frame. congruence.
Qed.

(** Its result is its output path. *)
Lemma cluster_hits_path fs input_hits_file output_cluster_file disabled_file
    noisy_file min_hit_charge max_hit_charge cd rd fd chunk_size out :
  snd (cluster_hits fs input_hits_file output_cluster_file disabled_file
         noisy_file min_hit_charge max_hit_charge cd rd fd chunk_size) = Ok out →
  out = default (default_cluster_file input_hits_file) output_cluster_file.
Proof.
  unfold cluster_hits.
  destruct (_ ≫= _) as [[[disabled_pixels noisy_pixels] input_file_h5]|e];
    [|done].
  case_decide; [done|]. rewrite with_open_write_result.
  unfold w_bind, create, w_lift, w_ret.
  destruct (create_node ∅ "Cluster" _) as [f1|]; [|done].
  destruct (read_hits input_file_h5) as [hits|]; [|done].
  destruct (cluster_chunks _ _ _ _ _) as [f2 [[]|]]; [|done].
  simpl. congruence.
Qed.

(** C5. Two runs of [cluster_hits] with the same parameters, from any
    two states of the file system that hold the same hit file and the
    same mask files, end alike and leave the same output file: the same
    Cluster rows, field by field and in the same order. *)
Theorem cluster_hits_deterministic (fs1 fs2 : FileSystem) input_hits_file
    output_cluster_file disabled_file noisy_file
    min_hit_charge max_hit_charge cd rd fd chunk_size :
  fs1 !! input_hits_file = fs2 !! input_hits_file →
  (∀ p, disabled_file = Some p → fs1 !! p = fs2 !! p) →
  (∀ p, noisy_file = Some p → fs1 !! p = fs2 !! p) →
  let run fs := cluster_hits fs input_hits_file output_cluster_file
                  disabled_file noisy_file min_hit_charge max_hit_charge
                  cd rd fd chunk_size in
  snd (run fs1) = snd (run fs2)
  ∧ ∀ out, snd (run fs1) = Ok out →
      fst (run fs1) !! out = fst (run fs2) !! out
      ∧ fst (run fs1) !! out ≫= (.!! "Cluster"%string)
        = fst (run fs2) !! out ≫= (.!! "Cluster"%string).
Proof.
  intros Hinput Hdis Hnoisy run.
  assert (Hfile : ∀ out, snd (run fs1) = Ok out →
                         fst (run fs1) !! out = fst (run fs2) !! out).
  { intros out Hout. subst run. cbv beta in *.
    pose proof (cluster_hits_path _ _ _ _ _ _ _ _ _ _ _ _ Hout) as ->.
    unfold cluster_hits, open_read in *.
    rewrite (read_pixels_ext fs1 fs2 disabled_file) in * by done.
    rewrite (read_pixels_ext fs1 fs2 noisy_file) in * by done.
    rewrite Hinput in *.
    destruct (_ ≫= _) as [[[disabled_pixels noisy_pixels] input_file_h5]|e];
      [|done].
    case_decide; [done|]. by rewrite !with_open_write_file. }
  split.
  - subst run. cbv beta. unfold cluster_hits, open_read.
    rewrite (read_pixels_ext fs1 fs2 disabled_file) by done.
    rewrite (read_pixels_ext fs1 fs2 noisy_file) by done.
    rewrite Hinput.
    destruct (_ ≫= _) as [[[disabled_pixels noisy_pixels] input_file_h5]|e];
      [|done].
    case_decide; [done|]. by rewrite !with_open_write_result.
  - intros out Hout. split; [by apply Hfile | by rewrite Hfile].
Qed.

(** C7, as the code has it.  When the loop of [cluster_hits] meets a
    chunk with a decreasing event number, the call raises at once and
    clusters nothing further; the output file has been created by then
    and keeps the Cluster rows of the chunks before the failing one. *)
Theorem cluster_hits_stops_with_partial_output fs input_hits_file f hits
    output_cluster_file disabled_file noisy_file disabled_pixels noisy_pixels
    min_hit_charge max_hit_charge cd rd fd chunk_size pre bad post fpre :
  fs !! input_hits_file = Some f →
  f !! "Hits"%string = Some (HitTable hits) →
  read_pixels fs disabled_file "DisabledPixelMask" = Ok disabled_pixels →
  read_pixels fs noisy_file "NoisyPixelMask" = Ok noisy_pixels →
  default (default_cluster_file input_hits_file) output_cluster_file
    ≠ input_hits_file →
  data_aligned_at_events hits chunk_size = pre ++ bad :: post →
  all_diff_nonneg (map event_number bad) = false →
  cluster_chunks (HitClusterizer cd rd fd min_hit_charge max_hit_charge)
    noisy_pixels disabled_pixels pre
    (<["Cluster"%string := ClusterTable []]> ∅) = (fpre, Ok tt) →
  let out := default (default_cluster_file input_hits_file) output_cluster_file in
  cluster_hits fs input_hits_file output_cluster_file disabled_file noisy_file
    min_hit_charge max_hit_charge cd rd fd chunk_size
  = (<[out := fpre]> fs, Err RuntimeError)
  ∧ ∃ outs,
      fpre = <["Cluster"%string := ClusterTable (concat outs)]> ∅
      ∧ Forall2 (clustered min_hit_charge max_hit_charge noisy_pixels disabled_pixels)
          pre outs.
Proof.
  intros Hfile Htable Hdis Hnoisy Hout Hchunks Hbad Hpre out.
  split.
  - rewrite (cluster_hits_run _ _ _ _ _ _ _ _ _ _ _ _ _ _ _
               Hfile Htable Hdis Hnoisy Hout).
    cbv zeta. rewrite Hchunks.
    by rewrite (cluster_chunks_stop _ _ _ _ _ _ _ _ Hpre Hbad).
  - eapply cluster_chunks_ok in Hpre as (outs & -> & Houts);
      [| apply configured_new | by rewrite lookup_insert_eq].
    exists outs. split; [|done]. by rewrite insert_insert_eq.
Qed.

(** A keyword that names no parameter is refused before anything runs. *)
Lemma call_cluster_hits_unexpected_keyword fs (kwds : gmap string PyVal) k :
  k ∈ dom kwds → k ∉ map fst cluster_hits_parameters →
  call_cluster_hits fs kwds = (fs, Err TypeError).
Proof.
  intros Hk Hnot. unfold call_cluster_hits, bind_keywords.
  rewrite decide_False; [done|].
  intros Hsub. apply Hnot. specialize (Hsub k Hk).
  by apply elem_of_list_to_set in Hsub.
Qed.

Lemma max_cluster_hits_no_parameter :
  "max_cluster_hits"%string ∉ map fst cluster_hits_parameters.
Proof.
  simpl. rewrite !not_elem_of_cons. repeat split; try discriminate.
  apply not_elem_of_nil.
Qed.

(** C9, as the code has it.  [cluster_hits] has no parameter for a
    maximum cluster size: a call that passes [max_cluster_hits] is refused
    with a [TypeError].  A run that goes through writes, in order, every
    cluster the clusterizer returned for every chunk: [cluster_hits]
    itself removes none, whatever its size. *)
Theorem cluster_hits_no_size_limit fs fs' input_hits_file f hits out
    output_cluster_file disabled_file noisy_file
    min_hit_charge max_hit_charge cd rd fd chunk_size :
  fs !! input_hits_file = Some f →
  f !! "Hits"%string = Some (HitTable hits) →
  cluster_hits fs input_hits_file output_cluster_file disabled_file noisy_file
    min_hit_charge max_hit_charge cd rd fd chunk_size = (fs', Ok out) →
  ("max_cluster_hits"%string ∉ map fst cluster_hits_parameters)
  ∧ (∀ fs0 (kwds : gmap string PyVal),
       "max_cluster_hits"%string ∈ dom kwds →
       call_cluster_hits fs0 kwds = (fs0, Err TypeError))
  ∧ ∃ noisy_pixels disabled_pixels outs,
      fs' !! out ≫= (.!! "Cluster"%string) = Some (ClusterTable (concat outs))
      ∧ Forall2 (clustered min_hit_charge max_hit_charge noisy_pixels disabled_pixels)
          (data_aligned_at_events hits chunk_size) outs.
Proof.
  intros Hfile Htable Hrun.
  split; [apply max_cluster_hits_no_parameter|]. split.
  { intros fs0 kwds Hk. eapply call_cluster_hits_unexpected_keyword; [done|].
    apply max_cluster_hits_no_parameter. }
  destruct (read_pixels fs disabled_file "DisabledPixelMask")
    as [disabled_pixels|e] eqn:Hdis;
    [|revert Hrun; unfold cluster_hits; rewrite Hdis; done].
  destruct (read_pixels fs noisy_file "NoisyPixelMask")
    as [noisy_pixels|e] eqn:Hnoisy;
    [|revert Hrun; unfold cluster_hits; rewrite Hdis, Hnoisy; done].
  destruct (decide (default (default_cluster_file input_hits_file)
                      output_cluster_file = input_hits_file)) as [Hsame|Hout].
  { revert Hrun. unfold cluster_hits, open_read.
    rewrite Hdis, Hnoisy, Hfile. simpl. by rewrite decide_True. }
  rewrite (cluster_hits_run _ _ _ _ _ _ _ _ _ _ _ _ _ _ _
             Hfile Htable Hdis Hnoisy Hout) in Hrun.
  cbv zeta in Hrun.
  destruct (cluster_chunks _ _ _ _ _) as [f' [[]|e]] eqn:Hloop;
    simpl in Hrun; [|done].
  injection Hrun as <- <-.
  eapply cluster_chunks_ok in Hloop as (outs & -> & Houts);
    [| apply configured_new | by rewrite lookup_insert_eq].
  exists noisy_pixels, disabled_pixels, outs. split; [|done].
  rewrite lookup_insert_eq. simpl. by rewrite lookup_insert_eq.
Qed.

End PixelClustererRuns.

(** ** Input files are left alone *)

Section Stages.
Context `{FloatOps} `{Clusterizer}.

(** C8, as the code has it.  [remove_noisy_pixels] and [cluster_hits]
    never change the hit file they read, and [generate_pixel_mask] leaves
    it alone as long as [output_mask_file] is not the input file itself
    (left to its default it never is).  Each stage writes at its output
    path only ([remove_noisy_pixels] also at the path of its mask file);
    every other file is as it was. *)
Theorem stages_leave_input_untouched fs input_hits_file n_pixel
    pixel_mask_name output_mask_file output_hits_file threshold filter_size
    output_cluster_file disabled_file noisy_file
    min_hit_charge max_hit_charge cd rd fd chunk_size :
  output_mask_file ≠ Some input_hits_file →
  let masked := generate_pixel_mask fs input_hits_file n_pixel pixel_mask_name
                  output_mask_file threshold filter_size chunk_size in
  let removed := remove_noisy_pixels fs input_hits_file n_pixel output_hits_file
                   threshold filter_size chunk_size in
  let clustered := cluster_hits fs input_hits_file output_cluster_file
                     disabled_file noisy_file min_hit_charge max_hit_charge
                     cd rd fd chunk_size in
  let mask_out := default (default_mask_file input_hits_file pixel_mask_name)
                    output_mask_file in
  let hits_out := default (default_hits_file input_hits_file) output_hits_file in
  let cluster_out := default (default_cluster_file input_hits_file)
                       output_cluster_file in
  (fst masked !! input_hits_file = fs !! input_hits_file
   ∧ mask_out ≠ input_hits_file
   ∧ ∀ p, p ≠ mask_out → fst masked !! p = fs !! p)
  ∧ (fst removed !! input_hits_file = fs !! input_hits_file
     ∧ ∀ p, p ≠ default_mask_file input_hits_file "DisabledPixelMask" →
            p ≠ hits_out → fst removed !! p = fs !! p)
  ∧ (fst clustered !! input_hits_file = fs !! input_hits_file
     ∧ ∀ p, p ≠ cluster_out → fst clustered !! p = fs !! p).
Proof.
  intros Hmask masked removed clustered mask_out hits_out cluster_out.
  assert (Hfresh : mask_out ≠ input_hits_file).
  { subst mask_out. destruct output_mask_file as [p|]; simpl.
    - congruence.
    - apply default_mask_file_fresh. }
  repeat split.
  - apply generate_pixel_mask_frame. by apply not_eq_sym.
  - done.
  - intros p Hp. by apply generate_pixel_mask_frame.
  - apply remove_noisy_pixels_input.
  - intros p Hp1 Hp2. by apply remove_noisy_pixels_frame.
  - apply cluster_hits_input.
  - intros p Hp. by apply cluster_hits_frame.
Qed.

End Stages.

(** ** Runs on concrete tables *)

Definition hit_at (event column row : Z) : Hit := mkHit event 0 column row 1.

Definition hits_file (rows : list Hit) : H5File :=
  {[ "Hits"%string := HitTable rows ]}.

(** A table without rows. *)
Definition empty_run : FileSystem := {[ "DUT0.h5"%string := hits_file [] ]}.

(** C3: on a hit table without rows the reader yields no chunk, the loop
    body never runs, [occupancy] is still [None] at [occupancy.astype],
    and the call raises; no mask file is written. *)
Theorem generate_pixel_mask_no_hits_raises `{FloatOps} fs input_hits_file f
    n_pixel pixel_mask_name output_mask_file threshold filter_size chunk_size :
  fs !! input_hits_file = Some f →
  f !! "Hits"%string = Some (HitTable []) →
  generate_pixel_mask fs input_hits_file n_pixel pixel_mask_name
    output_mask_file threshold filter_size chunk_size
  = (fs, Err AttributeError).
Proof.
  intros Hfile Htable. unfold generate_pixel_mask, open_read, read_hits.
  by rewrite Hfile; simpl; rewrite Htable.
Qed.

(** Had the loop run once on an empty chunk, the mask would be empty. *)
Example one_empty_chunk_flags_nothing :
  @pixel_mask_arrays exact_arith [[]] (2, 2) (surd_of_ratio 10 1) (3, 3)
  = Ok ([[0; 0]; [0; 0]], [[false; false]; [false; false]]).
Proof. reflexivity. Qed.

(** Event 5 twice, then event 3: with two rows per chunk the decrease
    falls between the chunks. *)
Definition boundary_run : FileSystem :=
  {[ "DUT0.h5"%string := hits_file [hit_at 5 1 1; hit_at 5 2 2; hit_at 3 1 1] ]}.

Example boundary_run_chunks :
  data_aligned_at_events [hit_at 5 1 1; hit_at 5 2 2; hit_at 3 1 1] 2
  = [[hit_at 5 1 1; hit_at 5 2 2]; [hit_at 3 1 1]].
Proof. reflexivity. Qed.

(** C2: each chunk passes [np.all(np.diff(...) >= 0)] on its own, so the
    run goes through and writes clusters for event 5, then for event 3. *)
Theorem cluster_hits_misses_boundary_decrease :
  let run := @cluster_hits singleton_clusterizer boundary_run "DUT0.h5"
               None None None 0 None 1 1 1 2 in
  snd run = Ok "DUT0_cluster.h5"%string
  ∧ ∃ clusters,
      fst run !! "DUT0_cluster.h5"%string ≫= (.!! "Cluster"%string)
      = Some (ClusterTable clusters)
      ∧ map cl_event_number clusters = [5; 5; 3].
Proof.
  split; [by vm_compute|].
  eexists. split; [by vm_compute | reflexivity].
Qed.

(** The second check of the loop, on the clusters (line 210), is per chunk
    as well: whatever clusterizer is at work, if it returns for every
    surviving hit a cluster of its event, the run on events 5, 5, 3 that
    goes through leaves a Cluster table with event 5 before event 3. *)
Lemma boundary_decrease_any_clusterizer `{Clusterizer} fs' out :
  clusterizer_contract →
  cluster_hits boundary_run "DUT0.h5" None None None 0 None 1 1 1 2
  = (fs', Ok out) →
  ∃ clusters,
    fs' !! out ≫= (.!! "Cluster"%string) = Some (ClusterTable clusters)
    ∧ ¬ non_decreasing (map cl_event_number clusters).
Proof.
  intros contract Hrun.
  rewrite (cluster_hits_run boundary_run "DUT0.h5"
             (hits_file [hit_at 5 1 1; hit_at 5 2 2; hit_at 3 1 1])
             [hit_at 5 1 1; hit_at 5 2 2; hit_at 3 1 1]
             None None None None None 0 None 1 1 1 2) in Hrun;
    [|reflexivity..|apply default_cluster_file_fresh].
  cbv zeta in Hrun.
  destruct (cluster_chunks _ _ _ _ _) as [f' [[]|e]] eqn:Hloop;
    simpl in Hrun; [|done].
  injection Hrun as <- <-.
  eapply cluster_chunks_ok in Hloop as (outs & -> & Houts);
    [| apply configured_new | by rewrite lookup_insert_eq].
  rewrite boundary_run_chunks in Houts.
  apply Forall2_cons_inv_l in Houts as (c1 & outs1 & Hc1 & Houts & ->).
  apply Forall2_cons_inv_l in Houts as (c2 & outs2 & Hc2 & Houts & ->).
  apply Forall2_nil_inv_l in Houts as ->.
  exists (c1 ++ c2 ++ []). split.
  { rewrite lookup_insert_eq. simpl. by rewrite lookup_insert_eq. }
  assert (H5 : 5 ∈ map cl_event_number c1).
  { destruct Hc1 as (_ & _ & cz & cz' & ch & Hcz & Hcall).
    destruct (contract _ _ _ _ _ _ _ _ _ Hcz Hcall) as [_ Hcov].
    apply (Hcov (hit_at 5 1 1)); [apply list_elem_of_here | reflexivity]. }
  assert (H3 : 3 ∈ map cl_event_number c2).
  { destruct Hc2 as (_ & _ & cz & cz' & ch & Hcz & Hcall).
    destruct (contract _ _ _ _ _ _ _ _ _ Hcz Hcall) as [_ Hcov].
    apply (Hcov (hit_at 3 1 1)); [apply list_elem_of_here | reflexivity]. }
  rewrite app_nil_r, map_app.
  intros Hsorted%non_decreasing_strongly.
  apply StronglySorted_app in Hsorted as (Hcross & _ & _).
  specialize (Hcross 5 3 H5 H3). lia.
Qed.


(** Events 1, 1, 3, 2 with two rows per chunk: the second chunk holds
    a decrease. *)
Definition partial_run : FileSystem :=
  {[ "DUT0.h5"%string :=
       hits_file [hit_at 1 1 1; hit_at 1 2 2; hit_at 3 1 1; hit_at 2 1 1] ]}.

(** Events 1, 1, 3, 2, 4 with two rows per chunk: the second chunk, rows
    3 and 2, holds a decrease, and a third chunk would follow.  The two
    hits of event 1 lie far apart. *)
Definition interrupted_hits : list Hit :=
  [hit_at 1 1 1; hit_at 1 5 5; hit_at 3 1 1; hit_at 2 1 1; hit_at 4 1 1].

Definition interrupted_run : FileSystem :=
  {[ "DUT0.h5"%string := hits_file interrupted_hits ]}.

Example interrupted_run_chunks :
  data_aligned_at_events interrupted_hits 2
  = [[hit_at 1 1 1; hit_at 1 5 5]; [hit_at 3 1 1; hit_at 2 1 1]; [hit_at 4 1 1]].
Proof. reflexivity. Qed.

(** C7 fails on the code: the run raises in its second chunk, and the
    output file, absent before, is left behind with a Cluster table that
    holds the clusters of the first chunk, those of event 1, and no
    other. *)
Lemma cluster_hits_leaves_partial_file :
  let run := @cluster_hits singleton_clusterizer interrupted_run "DUT0.h5"
               None None None 0 None 1 1 1 2 in
  snd run = Err RuntimeError
  ∧ interrupted_run !! "DUT0_cluster.h5"%string = None
  ∧ ∃ clusters,
      fst run !! "DUT0_cluster.h5"%string ≫= (.!! "Cluster"%string)
      = Some (ClusterTable clusters)
      ∧ clusters ≠ []
      ∧ Forall (fun c => cl_event_number c = 1) clusters.
Proof.
  split; [by vm_compute|]. split; [by vm_compute|].
  eexists. split; [by vm_compute|].
  split; [discriminate | by repeat constructor].
Qed.

(** C8 fails on the code: told to write its mask over the hit file,
    [generate_pixel_mask] does so; the hit table is gone afterwards. *)
Lemma generate_pixel_mask_overwrites_input :
  let run := @generate_pixel_mask exact_arith partial_run "DUT0.h5" (2, 2)
               "NoisyPixelMask" (Some "DUT0.h5"%string) (surd_of_ratio 10 1)
               (3, 3) 2 in
  snd run = Ok "DUT0.h5"%string
  ∧ fst run !! "DUT0.h5"%string ≠ partial_run !! "DUT0.h5"%string
  ∧ fst run !! "DUT0.h5"%string ≫= (.!! "Hits"%string) = None.
Proof.
  split; [by vm_compute|]. split; [|by vm_compute].
  intros E. apply (f_equal (fun o => o ≫= (.!! "Hits"%string))) in E.
  vm_compute in E. discriminate.
Qed.

(** C9 fails on the code: the call of the example script, which passes a
    maximum cluster size, is refused. *)
Lemma cluster_hits_rejects_max_cluster_hits :
  @call_cluster_hits singleton_clusterizer partial_run
    {[ "input_hits_file"%string := PyStr "DUT0.h5";
       "max_cluster_hits"%string := PyInt 1000000 ]}
  = (partial_run, Err TypeError).
Proof.
  apply (call_cluster_hits_unexpected_keyword _ _ "max_cluster_hits").
  - apply elem_of_dom. by eexists; vm_compute.
  - apply max_cluster_hits_no_parameter.
Qed.

(** Without that keyword the same call runs. *)
Example call_cluster_hits_runs :
  snd (@call_cluster_hits singleton_clusterizer boundary_run
         {[ "input_hits_file"%string := PyStr "DUT0.h5";
            "chunk_size"%string := PyInt 2 ]})
  = Ok "DUT0_cluster.h5"%string.
Proof. by vm_compute. Qed.

(** ** The sample clusterizer keeps to the contract *)

Lemma number_clusters_events ev next_id hits :
  map cl_event_number (number_clusters ev next_id hits) = map event_number hits.
Proof.
  revert ev next_id. induction hits as [|h hits IH]; intros ev next_id; [done|].
  simpl. by rewrite IH.
Qed.

Lemma singleton_clusterizer_contract : @clusterizer_contract singleton_clusterizer.
Proof.
  intros min_hit_charge max_hit_charge cz hits noisy_pixels disabled_pixels
         cz' ch cluster Hcz Hcall.
  assert (Hstate : cz = (min_hit_charge, max_hit_charge)).
  { clear Hcall. induction Hcz as [|cz0 ? ? ? cz1 out _ IH Hstep]; [done|].
    simpl in Hstep. by injection Hstep as <- _. }
  subst cz. simpl in Hcall. injection Hcall as _ _ <-. split.
  - intros c Hc.
    assert (Hev : cl_event_number c
                  ∈ map cl_event_number
                      (number_clusters None 0
                         (filter (fun h => surviving min_hit_charge max_hit_charge
                                             noisy_pixels disabled_pixels h = true)
                            hits))).
    { rewrite map_is_fmap. apply list_elem_of_fmap. by exists c. }
    rewrite number_clusters_events, map_is_fmap in Hev.
    apply list_elem_of_fmap in Hev as (h & -> & Hh).
    apply list_elem_of_filter in Hh as [_ Hh]. by exists h.
  - intros h Hh Hs. rewrite number_clusters_events, map_is_fmap.
    apply list_elem_of_fmap. exists h. split; [done|].
    by apply list_elem_of_filter.
Qed.

(** ** The statements at work on concrete tables *)

(** Pixel (5, 5) of a 6 x 6 grid fires in every event; four other pixels
    fire once. *)
Definition noisy_hits : list Hit :=
  [ hit_at 1 5 5; hit_at 1 2 3; hit_at 2 5 5; hit_at 3 5 5; hit_at 3 4 1;
    hit_at 4 5 5; hit_at 5 5 5; hit_at 5 6 6; hit_at 6 5 5; hit_at 7 5 5;
    hit_at 8 5 5; hit_at 8 1 1 ].

Definition noisy_run : FileSystem := {[ "DUT0.h5"%string := hits_file noisy_hits ]}.

Example noisy_run_mask :
  let run := @generate_pixel_mask exact_arith noisy_run "DUT0.h5" (6, 6)
               "NoisyPixelMask" None (surd_of_ratio 3 1) (3, 3) 4 in
  fst run !! "DUT0_noisy_pixel_mask.h5"%string ≫= (.!! "NoisyPixelMask"%string)
  = Some (BoolArray
            [ [false; false; false; false; false; false];
              [false; false; false; false; false; false];
              [false; false; false; false; false; false];
              [false; false; false; false; false; false];
              [false; false; false; false; true; false];
              [false; false; false; false; false; false] ]).
Proof. by vm_compute. Qed.

Example noisy_run_removed :
  let run := @remove_noisy_pixels exact_arith noisy_run "DUT0.h5" (6, 6)
               None (surd_of_ratio 3 1) (3, 3) 4 in
  fst run !! "DUT0_noisy_pixels.h5"%string ≫= (.!! "Hits"%string)
  = Some (HitTable [hit_at 1 2 3; hit_at 3 4 1; hit_at 5 6 6; hit_at 8 1 1]).
Proof. by vm_compute. Qed.

Ltac on_grid_all :=
  repeat constructor; unfold on_grid, in_shape; simpl; lia.

Lemma generate_pixel_mask_flags_witness :
  ∃ fs' out occupancy mask,
    @generate_pixel_mask exact_arith noisy_run "DUT0.h5" (6, 6) "NoisyPixelMask"
      None (surd_of_ratio 3 1) (3, 3) 4 = (fs', Ok out)
    ∧ fs' !! out ≫= (.!! "NoisyPixelMask"%string) = Some (BoolArray mask)
    ∧ fs' !! out ≫= (.!! "HistOcc"%string) = Some (IntArray occupancy)
    ∧ ∀ c r, 1 ≤ c ≤ 6 → 1 ≤ r ≤ 6 →
        get2 occupancy (c - 1) (r - 1) = Some (occupancy_of noisy_hits c r)
        ∧ get2 mask (c - 1) (r - 1)
          = Some (surd_lt_int (occupancy_of noisy_hits c r
                               - smoothed noisy_hits (6, 6) (3, 3) c r)
                    (surd_mul (surd_of_ratio 3 1)
                       (@sigma exact_arith noisy_hits (6, 6) (3, 3))))
        ∧ (get2 mask (c - 1) (r - 1) = Some true
           ↔ @exceeds exact_arith noisy_hits (6, 6) (3, 3) (surd_of_ratio 3 1) c r
             = true).
Proof.
  apply (generate_pixel_mask_flags (H := exact_arith) noisy_run "DUT0.h5"
           (hits_file noisy_hits) noisy_hits (6, 6) "NoisyPixelMask" None
           (surd_of_ratio 3 1) (3, 3) 4).
  - reflexivity.
  - reflexivity.
  - discriminate.
  - on_grid_all.
  - simpl. lia.
  - simpl. lia.
  - simpl. lia.
  - discriminate.
Defined.

Lemma generate_pixel_mask_no_hits_raises_witness :
  @generate_pixel_mask exact_arith empty_run "DUT0.h5" (6, 6) "NoisyPixelMask"
    None (surd_of_ratio 10 1) (3, 3) 1000000
  = (empty_run, Err AttributeError).
Proof.
  apply (generate_pixel_mask_no_hits_raises (H := exact_arith) empty_run
           "DUT0.h5" (hits_file [])); reflexivity.
Defined.

Lemma generate_pixel_mask_same_mask_witness :
  let fs2 : FileSystem := <["stale.h5"%string := hits_file []]> noisy_run in
  let run fs := @generate_pixel_mask exact_arith fs "DUT0.h5" (6, 6)
                  "NoisyPixelMask" None (surd_of_ratio 3 1) (3, 3) 4 in
  snd (run noisy_run) = snd (run fs2)
  ∧ ∀ out, snd (run noisy_run) = Ok out →
      fst (run noisy_run) !! out = fst (run fs2) !! out
      ∧ fst (run noisy_run) !! out ≫= (.!! "NoisyPixelMask"%string)
        = fst (run fs2) !! out ≫= (.!! "NoisyPixelMask"%string).
Proof.
  intros fs2.
  apply (generate_pixel_mask_same_mask (H := exact_arith) noisy_run fs2 "DUT0.h5"
           (6, 6) "NoisyPixelMask" None (surd_of_ratio 3 1) (3, 3) 4).
  reflexivity.
Defined.

Lemma remove_noisy_pixels_keeps_unflagged_witness :
  ∃ fs1 mask_path mask,
    @generate_pixel_mask exact_arith noisy_run "DUT0.h5" (6, 6) "DisabledPixelMask"
      None (surd_of_ratio 3 1) (3, 3) 4 = (fs1, Ok mask_path)
    ∧ fs1 !! mask_path ≫= (.!! "DisabledPixelMask"%string) = Some (BoolArray mask)
    ∧ let out := default (default_hits_file "DUT0.h5") None in
      let run := @remove_noisy_pixels exact_arith noisy_run "DUT0.h5" (6, 6) None
                   (surd_of_ratio 3 1) (3, 3) 4 in
      fst run !! out ≫= (.!! "Hits"%string)
      = Some (HitTable (not_flagged mask noisy_hits))
      ∧ snd run = Ok out
      ∧ (nonzero mask = [] → not_flagged mask noisy_hits = noisy_hits).
Proof.
  apply (remove_noisy_pixels_keeps_unflagged (H := exact_arith) noisy_run
           "DUT0.h5" (hits_file noisy_hits) noisy_hits (6, 6) None
           (surd_of_ratio 3 1) (3, 3) 4).
  - reflexivity.
  - reflexivity.
  - discriminate.
  - on_grid_all.
  - simpl. lia.
  - simpl. lia.
  - simpl. lia.
  - vm_compute. discriminate.
Defined.

(** Events 1, 1, 2, 4, 4 in order; a second file holds a stale result. *)
Definition ordered_hits : list Hit :=
  [hit_at 1 1 1; hit_at 1 2 2; hit_at 2 3 3; hit_at 4 1 2; hit_at 4 2 1].

Definition ordered_run : FileSystem :=
  {[ "DUT0.h5"%string := hits_file ordered_hits ]}.

Definition ordered_rerun : FileSystem :=
  <["DUT0_cluster.h5"%string := hits_file []]> ordered_run.

Lemma cluster_hits_event_numbers_witness :
  ∃ clusters,
    fst (@cluster_hits singleton_clusterizer ordered_run "DUT0.h5"
           None None None 0 None 1 1 1 2)
      !! "DUT0_cluster.h5"%string ≫= (.!! "Cluster"%string)
    = Some (ClusterTable clusters)
    ∧ non_decreasing (map cl_event_number clusters)
    ∧ ∀ h, h ∈ ordered_hits →
        surviving 0 None None None h = true →
        event_number h ∈ map cl_event_number clusters.
Proof.
  apply (cluster_hits_event_numbers (H := singleton_clusterizer) ordered_run _
           "DUT0.h5" (hits_file ordered_hits) ordered_hits "DUT0_cluster.h5"
           None None None None None 0 None 1 1 1 2).
  - exact singleton_clusterizer_contract.
  - reflexivity.
  - reflexivity.
  - reflexivity.
  - reflexivity.
  - repeat constructor; unfold event_range; simpl; lia.
  - unfold non_decreasing. simpl. repeat constructor; lia.
  - vm_compute. reflexivity.
Defined.

Lemma cluster_hits_deterministic_witness :
  let run fs := @cluster_hits singleton_clusterizer fs "DUT0.h5"
                  None None None 0 None 1 1 1 2 in
  snd (run ordered_run) = snd (run ordered_rerun)
  ∧ ∀ out, snd (run ordered_run) = Ok out →
      fst (run ordered_run) !! out = fst (run ordered_rerun) !! out
      ∧ fst (run ordered_run) !! out ≫= (.!! "Cluster"%string)
        = fst (run ordered_rerun) !! out ≫= (.!! "Cluster"%string).
Proof.
  apply (cluster_hits_deterministic (H := singleton_clusterizer)
           ordered_run ordered_rerun "DUT0.h5" None None None 0 None 1 1 1 2).
  - reflexivity.
  - discriminate.
  - discriminate.
Defined.

Lemma cluster_hits_stops_with_partial_output_witness :
  let first_chunk := [hit_at 1 1 1; hit_at 1 5 5] in
  let fpre := fst (@cluster_chunks singleton_clusterizer (0, None) None None
                     [first_chunk] (<["Cluster"%string := ClusterTable []]> ∅)) in
  @cluster_hits singleton_clusterizer interrupted_run "DUT0.h5"
    None None None 0 None 1 1 1 2
  = (<["DUT0_cluster.h5"%string := fpre]> interrupted_run, Err RuntimeError)
  ∧ ∃ outs,
      fpre = <["Cluster"%string := ClusterTable (concat outs)]> ∅
      ∧ Forall2 (@clustered singleton_clusterizer 0 None None None)
          [first_chunk] outs.
Proof.
  intros first_chunk fpre.
  apply (cluster_hits_stops_with_partial_output (H := singleton_clusterizer)
           interrupted_run "DUT0.h5" (hits_file interrupted_hits) interrupted_hits
           None None None None None 0 None 1 1 1 2
           [first_chunk] [hit_at 3 1 1; hit_at 2 1 1] [[hit_at 4 1 1]] fpre).
  - reflexivity.
  - reflexivity.
  - reflexivity.
  - reflexivity.
  - vm_compute. discriminate.
  - reflexivity.
  - reflexivity.
  - vm_compute. reflexivity.
Defined.

Lemma cluster_hits_no_size_limit_witness :
  ("max_cluster_hits"%string ∉ map fst cluster_hits_parameters)
  ∧ (∀ fs0 (kwds : gmap string PyVal),
       "max_cluster_hits"%string ∈ dom kwds →
       @call_cluster_hits singleton_clusterizer fs0 kwds = (fs0, Err TypeError))
  ∧ ∃ noisy_pixels disabled_pixels outs,
      fst (@cluster_hits singleton_clusterizer ordered_run "DUT0.h5"
             None None None 0 None 1 1 1 2)
        !! "DUT0_cluster.h5"%string ≫= (.!! "Cluster"%string)
      = Some (ClusterTable (concat outs))
      ∧ Forall2 (@clustered singleton_clusterizer 0 None noisy_pixels disabled_pixels)
          (data_aligned_at_events ordered_hits 2) outs.
Proof.
  apply (cluster_hits_no_size_limit (H := singleton_clusterizer) ordered_run _
           "DUT0.h5" (hits_file ordered_hits) ordered_hits "DUT0_cluster.h5"
           None None None 0 None 1 1 1 2).
  - reflexivity.
  - reflexivity.
  - vm_compute. reflexivity.
Defined.

Lemma stages_leave_input_untouched_witness :
  let masked := @generate_pixel_mask exact_arith noisy_run "DUT0.h5" (6, 6)
                  "NoisyPixelMask" None (surd_of_ratio 3 1) (3, 3) 4 in
  let removed := @remove_noisy_pixels exact_arith noisy_run "DUT0.h5" (6, 6)
                   None (surd_of_ratio 3 1) (3, 3) 4 in
  let clustered := @cluster_hits singleton_clusterizer noisy_run "DUT0.h5"
                     None None None 0 None 1 1 1 4 in
  let mask_out := default (default_mask_file "DUT0.h5" "NoisyPixelMask") None in
  let hits_out := default (default_hits_file "DUT0.h5") None in
  let cluster_out := default (default_cluster_file "DUT0.h5") None in
  (fst masked !! "DUT0.h5"%string = noisy_run !! "DUT0.h5"%string
   ∧ mask_out ≠ "DUT0.h5"%string
   ∧ ∀ p, p ≠ mask_out → fst masked !! p = noisy_run !! p)
  ∧ (fst removed !! "DUT0.h5"%string = noisy_run !! "DUT0.h5"%string
     ∧ ∀ p, p ≠ default_mask_file "DUT0.h5" "DisabledPixelMask" →
            p ≠ hits_out → fst removed !! p = noisy_run !! p)
  ∧ (fst clustered !! "DUT0.h5"%string = noisy_run !! "DUT0.h5"%string
     ∧ ∀ p, p ≠ cluster_out → fst clustered !! p = noisy_run !! p).
Proof.
  apply (stages_leave_input_untouched (H := exact_arith)
           (H0 := singleton_clusterizer) noisy_run "DUT0.h5" (6, 6)
           "NoisyPixelMask" None None (surd_of_ratio 3 1) (3, 3)
           None None None 0 None 1 1 1 4).
  discriminate.
Defined.

(** * Further properties of the three stages *)

(** ** Output names *)

(** Left to their defaults, the three output names are never the name of
    the input file, whatever that name and the mask name are. *)
Theorem default_outputs_never_the_input input_hits_file pixel_mask_name :
  default_mask_file input_hits_file pixel_mask_name ≠ input_hits_file
  ∧ default_hits_file input_hits_file ≠ input_hits_file
  ∧ default_cluster_file input_hits_file ≠ input_hits_file.
Proof.
  split; [apply default_mask_file_fresh|].
  split; [apply default_hits_file_fresh | apply default_cluster_file_fresh].
Qed.

Lemma findall_capitalised_skip pre l :
  Forall (fun c => is_upper c = false) pre →
  findall_capitalised None (pre ++ l) = findall_capitalised None l.
Proof.
  induction 1 as [|c pre Hc _ IH]; [done|].
  change ((c :: pre) ++ l) with (c :: (pre ++ l)).
  cbn [findall_capitalised]. by rewrite Hc.
Qed.

Lemma snake_case_skip pre name :
  Forall (fun c => is_upper c = false) (list_ascii_of_string pre) →
  snake_case (pre +:+ name) = snake_case name.
Proof.
  intros Hpre. unfold snake_case.
  by rewrite list_ascii_of_string_app, findall_capitalised_skip.
Qed.

Lemma string_app_nil_r (s : string) : (s +:+ "")%string = s.
Proof.
  induction s as [|c s IH]; [done|].
  change (String c (s +:+ "") = String c s). by rewrite IH.
Qed.

(** The mask file name is built from the capitalised words of
    [pixel_mask_name] only: what precedes the first capital letter is
    dropped, and a name without capital letters gives the bare suffix
    ["_.h5"], the same for all such names. *)
Theorem default_mask_file_drops_lowercase_prefix input_hits_file pre name :
  Forall (fun c => is_upper c = false) (list_ascii_of_string pre) →
  default_mask_file input_hits_file (pre +:+ name)
  = default_mask_file input_hits_file name
  ∧ default_mask_file input_hits_file pre
    = (fst (splitext input_hits_file) +:+ "_.h5")%string.
Proof.
  intros Hpre. unfold default_mask_file. split.
  - by rewrite snake_case_skip.
  - assert (E : snake_case pre = ""%string).
    { rewrite <- (string_app_nil_r pre). by rewrite snake_case_skip. }
    by rewrite E.
Qed.

Lemma default_mask_file_drops_lowercase_prefix_witness :
  default_mask_file "DUT0.h5" ("my_" +:+ "NoisyPixelMask")
  = default_mask_file "DUT0.h5" "NoisyPixelMask"
  ∧ default_mask_file "DUT0.h5" "my_"
    = (fst (splitext "DUT0.h5") +:+ "_.h5")%string.
Proof.
  apply (default_mask_file_drops_lowercase_prefix "DUT0.h5" "my_" "NoisyPixelMask").
  repeat constructor.
Defined.

(** ** [generate_pixel_mask]: failures and repeated runs *)

(** A node name that PyTables takes as it is: a letter, then letters,
    digits and underscores.  The empty name, ["."], a name with a slash and
    a name with a reserved prefix ([_c_], [_f_], [_g_], [_v_]) are refused
    by [create_carray] with [ValueError]; none of them is of this form. *)
Definition is_letter (c : ascii) : bool :=
  let n := nat_of_ascii c in
  ((65 <=? n)%nat && (n <=? 90)%nat) || ((97 <=? n)%nat && (n <=? 122)%nat).

Definition is_digit (c : ascii) : bool :=
  let n := nat_of_ascii c in (48 <=? n)%nat && (n <=? 57)%nat.

Definition natural_name (name : string) : bool :=
  match list_ascii_of_string name with
  | c :: rest =>
      is_letter c
      && forallb (fun x => is_letter x || is_digit x || bool_decide (x = "_"%char))
           rest
  | [] => false
  end.

Section NoiseMaskerEdges.
Context `{FloatOps}.

(** A call of [generate_pixel_mask] with a mask name that PyTables takes
    as a node name, and that raises, has touched no file, with one
    exception: when the mask is to be named like the occupancy node, the
    output file has been created and holds the occupancy only. *)
Theorem generate_pixel_mask_failure fs fs' input_hits_file n_pixel
    pixel_mask_name output_mask_file threshold filter_size chunk_size e :
  natural_name pixel_mask_name = true →
  generate_pixel_mask fs input_hits_file n_pixel pixel_mask_name
    output_mask_file threshold filter_size chunk_size = (fs', Err e) →
  fs' = fs
  ∨ (pixel_mask_name = "HistOcc"%string ∧ e = NodeError
     ∧ ∃ occupancy,
         fs' = <[default (default_mask_file input_hits_file pixel_mask_name)
                   output_mask_file :=
                   {[ "HistOcc"%string := IntArray occupancy ]}]> fs).
Proof.
  intros _. unfold generate_pixel_mask.
  destruct (_ ≫= _) as [[occupancy mask]|e0]; [|by intros [= <- _]; left].
  unfold with_open_write, w_bind, create, create_node, w_ret.
  rewrite lookup_empty.
  destruct (decide (pixel_mask_name = "HistOcc"%string)) as [->|Hname].
  - rewrite lookup_insert_eq. intros [= <- <-]. right.
    repeat split. by exists occupancy.
  - rewrite lookup_insert_ne, lookup_empty by done. done.
Qed.

(** Asked to name the mask ["HistOcc"], [generate_pixel_mask] always
    fails on a well-formed table: the occupancy is written, the mask node
    cannot be created beside it, and the file is left without a mask. *)
Theorem generate_pixel_mask_name_clash fs input_hits_file f hits n_pixel
    output_mask_file threshold filter_size chunk_size :
  fs !! input_hits_file = Some f →
  f !! "Hits"%string = Some (HitTable hits) →
  hits ≠ [] →
  Forall (on_grid n_pixel) hits →
  Z.of_nat (length hits) < 2^31 →
  0 < fst filter_size → 0 < snd filter_size →
  generate_pixel_mask fs input_hits_file n_pixel "HistOcc"
    output_mask_file threshold filter_size chunk_size
  = (<[default (default_mask_file input_hits_file "HistOcc") output_mask_file :=
         {[ "HistOcc"%string := IntArray (occupancy_array hits n_pixel) ]}]> fs,
     Err NodeError).
Proof.
  intros Hfile Htable Hne Hgrid Hlen Hfc Hfr.
  destruct (grid_positive n_pixel hits Hne Hgrid) as [Hnc Hnr].
  unfold generate_pixel_mask, open_read, read_hits.
  rewrite Hfile. simpl. rewrite Htable. simpl.
  rewrite pixel_mask_arrays_spec;
    rewrite ?data_aligned_at_events_concat; try done;
    try (by apply data_aligned_at_events_cons).
Qed.

(** Running [generate_pixel_mask] again with the same arguments, on the
    files its first run left, gives the same result and changes nothing,
    as long as the output is not the input file. *)
Theorem generate_pixel_mask_rerun fs input_hits_file n_pixel pixel_mask_name
    output_mask_file threshold filter_size chunk_size :
  default (default_mask_file input_hits_file pixel_mask_name) output_mask_file
    ≠ input_hits_file →
  let run fs := generate_pixel_mask fs input_hits_file n_pixel pixel_mask_name
                  output_mask_file threshold filter_size chunk_size in
  run (fst (run fs)) = run fs.
Proof.
  intros Hout run. subst run. cbv beta. unfold generate_pixel_mask.
  destruct (open_read fs input_hits_file ≫= _) as [[occupancy mask]|e] eqn:Hfirst.
  - unfold with_open_write.
    destruct (w_bind _ _ ∅) as [f r] eqn:Hbody. simpl.
    unfold open_read in *. rewrite lookup_insert_ne by done.
    rewrite Hfirst. unfold with_open_write. rewrite Hbody.
    by rewrite insert_insert_eq.
  - simpl. by rewrite Hfirst.
Qed.

(** Told to write over its input, a first run that goes through leaves no
    hit table behind: the same call again fails on the missing node, with
    [NoSuchNodeError], and changes nothing.  If the mask was named
    ["Hits"], the node is there but is the mask array, which cannot be
    read as a table: [IndexError]. *)
Theorem generate_pixel_mask_rerun_over_input fs fs1 input_hits_file n_pixel
    pixel_mask_name threshold filter_size chunk_size out :
  generate_pixel_mask fs input_hits_file n_pixel pixel_mask_name
    (Some input_hits_file) threshold filter_size chunk_size = (fs1, Ok out) →
  generate_pixel_mask fs1 input_hits_file n_pixel pixel_mask_name
    (Some input_hits_file) threshold filter_size chunk_size
  = (fs1, Err (if decide (pixel_mask_name = "Hits"%string)
               then IndexError else NoSuchNodeError)).
Proof.
  unfold generate_pixel_mask at 1.
  destruct (_ ≫= _) as [[occupancy mask]|e]; [|done].
  unfold with_open_write, w_bind, create, create_node, w_ret.
  rewrite lookup_empty. simpl.
  destruct (decide (pixel_mask_name = "HistOcc"%string)) as [->|Hname].
  { by rewrite lookup_insert_eq. }
  rewrite lookup_insert_ne, lookup_empty by done.
  intros [= <- <-].
  unfold generate_pixel_mask, open_read, read_hits.
  rewrite lookup_insert_eq. simpl.
  case_decide as Hhits.
  - subst pixel_mask_name. by rewrite lookup_insert_eq.
  - by rewrite lookup_insert_ne, lookup_insert_ne, lookup_empty.
Qed.

End NoiseMaskerEdges.

Lemma generate_pixel_mask_failure_witness :
  let fs' := <["DUT0_hist_occ.h5"%string :=
                {[ "HistOcc"%string :=
                     IntArray (occupancy_array noisy_hits (6, 6)) ]}]> noisy_run in
  natural_name "HistOcc" = true
  ∧ (fs' = noisy_run
  ∨ ("HistOcc"%string = "HistOcc"%string ∧ NodeError = NodeError
     ∧ ∃ occupancy,
         fs' = <[default (default_mask_file "DUT0.h5" "HistOcc") None :=
                   {[ "HistOcc"%string := IntArray occupancy ]}]> noisy_run)).
Proof.
  intros fs'. split; [reflexivity|].
  apply (generate_pixel_mask_failure (H := exact_arith) noisy_run fs' "DUT0.h5"
           (6, 6) "HistOcc" None (surd_of_ratio 3 1) (3, 3) 4 NodeError).
  - reflexivity.
  - vm_compute. reflexivity.
Defined.

Lemma generate_pixel_mask_name_clash_witness :
  @generate_pixel_mask exact_arith noisy_run "DUT0.h5" (6, 6) "HistOcc" None
    (surd_of_ratio 3 1) (3, 3) 4
  = (<[default (default_mask_file "DUT0.h5" "HistOcc") None :=
         {[ "HistOcc"%string := IntArray (occupancy_array noisy_hits (6, 6)) ]}]>
       noisy_run,
     Err NodeError).
Proof.
  apply (generate_pixel_mask_name_clash (H := exact_arith) noisy_run "DUT0.h5"
           (hits_file noisy_hits) noisy_hits (6, 6) None (surd_of_ratio 3 1)
           (3, 3) 4).
  - reflexivity.
  - reflexivity.
  - discriminate.
  - on_grid_all.
  - simpl. lia.
  - simpl. lia.
  - simpl. lia.
Defined.

Lemma generate_pixel_mask_rerun_witness :
  let run fs := @generate_pixel_mask exact_arith fs "DUT0.h5" (6, 6)
                  "NoisyPixelMask" None (surd_of_ratio 3 1) (3, 3) 4 in
  run (fst (run noisy_run)) = run noisy_run.
Proof.
  apply (generate_pixel_mask_rerun (H := exact_arith) noisy_run "DUT0.h5" (6, 6)
           "NoisyPixelMask" None (surd_of_ratio 3 1) (3, 3) 4).
  vm_compute. discriminate.
Defined.

Lemma generate_pixel_mask_rerun_over_input_witness :
  let fs1 := fst (@generate_pixel_mask exact_arith noisy_run "DUT0.h5" (6, 6)
                    "Hits" (Some "DUT0.h5"%string)
                    (surd_of_ratio 3 1) (3, 3) 4) in
  @generate_pixel_mask exact_arith fs1 "DUT0.h5" (6, 6) "Hits"
    (Some "DUT0.h5"%string) (surd_of_ratio 3 1) (3, 3) 4
  = (fs1, Err (if decide ("Hits"%string = "Hits"%string)
               then IndexError else NoSuchNodeError)).
Proof.
  intros fs1.
  apply (generate_pixel_mask_rerun_over_input (H := exact_arith) noisy_run fs1
           "DUT0.h5" (6, 6) "Hits" (surd_of_ratio 3 1) (3, 3) 4
           "DUT0.h5").
  vm_compute. reflexivity.
Defined.

(** ** The occupancy counts every hit once *)

Lemma sum_Z_app l1 l2 : sum_Z (l1 ++ l2) = sum_Z l1 + sum_Z l2.
Proof. induction l1 as [|x l1 IH]; simpl; lia. Qed.

Lemma sum_Z_concat_map {A} (g : A → list Z) l :
  sum_Z (concat (map g l)) = sum_Z (map (fun x => sum_Z (g x)) l).
Proof.
  induction l as [|x l IH]; simpl; [done|]. rewrite sum_Z_app. lia.
Qed.

Lemma sum_Z_map_add {A} (f g : A → Z) l :
  sum_Z (map (fun x => f x + g x) l) = sum_Z (map f l) + sum_Z (map g l).
Proof. induction l as [|x l IH]; simpl; lia. Qed.

Lemma sum_Z_map_zero {A} (f : A → Z) l :
  (∀ x, x ∈ l → f x = 0) → sum_Z (map f l) = 0.
Proof.
  induction l as [|x l IH]; intros Hf; simpl; [done|].
  rewrite Hf, IH; [done| |]; [|apply list_elem_of_here].
  intros y Hy. apply Hf. by apply list_elem_of_further.
Qed.

Lemma sum_Z_indicator (x : Z) l :
  NoDup l → x ∈ l →
  sum_Z (map (fun y => if decide (x = y) then 1 else 0) l) = 1.
Proof.
  induction 1 as [|y l Hy Hl IH]; intros Hx; [by apply elem_of_nil in Hx|].
  simpl. case_decide as E.
  - subst y. rewrite sum_Z_map_zero; [done|].
    intros z Hz. rewrite decide_False; [done|]. by intros <-.
  - apply elem_of_cons in Hx as [?|Hx]; [done|]. rewrite IH by done. lia.
Qed.

Lemma NoDup_seqZ0 n : NoDup (seqZ0 n).
Proof.
  unfold seqZ0. rewrite map_is_fmap.
  apply NoDup_fmap_2; [apply _ | apply NoDup_seq].
Qed.

Lemma elem_of_seqZ0 x n : x ∈ seqZ0 n ↔ 0 ≤ x < n.
Proof.
  unfold seqZ0. rewrite map_is_fmap, list_elem_of_fmap. split.
  - intros (k & -> & Hk). apply elem_of_seq in Hk. lia.
  - intros Hx. exists (Z.to_nat x). split; [lia|]. apply elem_of_seq. lia.
Qed.

(** The sum of all entries of an array. *)
Definition total (a : array2 Z) : Z := sum_Z (concat a).

Lemma total_tabulate2 shape f :
  total (tabulate2 shape f)
  = sum_Z (map (fun c => sum_Z (map (f c) (seqZ0 (snd shape)))) (seqZ0 (fst shape))).
Proof. unfold total, tabulate2. apply sum_Z_concat_map. Qed.

Lemma total_tabulate2_add shape f g :
  total (tabulate2 shape (fun c r => f c r + g c r))
  = total (tabulate2 shape f) + total (tabulate2 shape g).
Proof.
  rewrite !total_tabulate2, <- sum_Z_map_add.
  f_equal. apply map_ext. intros c. apply sum_Z_map_add.
Qed.

Lemma total_tabulate2_indicator shape (p : Z * Z) :
  in_shape shape (fst p) (snd p) →
  total (tabulate2 shape (fun c r => if decide (p = (c, r)) then 1 else 0)) = 1.
Proof.
  intros [Hc Hr]. rewrite total_tabulate2. destruct p as [x y]. simpl in *.
  rewrite (map_ext _ (fun c => if decide (x = c) then 1 else 0)).
  - apply sum_Z_indicator; [apply NoDup_seqZ0 | by apply elem_of_seqZ0].
  - intros c. case_decide as E.
    + subst c.
      rewrite (map_ext _ (fun r => if decide (y = r) then 1 else 0)).
      * apply sum_Z_indicator; [apply NoDup_seqZ0 | by apply elem_of_seqZ0].
      * intros r. by destruct (decide (y = r)) as [->|?];
          [rewrite decide_True | rewrite decide_False by congruence].
    + apply sum_Z_map_zero. intros r _. rewrite decide_False; congruence.
Qed.

Lemma total_count_at shape xy :
  Forall (fun p => in_shape shape (fst p) (snd p)) xy →
  total (tabulate2 shape (count_at xy)) = Z.of_nat (length xy).
Proof.
  induction 1 as [|p xy Hp _ IH].
  - rewrite total_tabulate2. apply sum_Z_map_zero. intros c _.
    by apply sum_Z_map_zero.
  - rewrite (tabulate2_ext shape _
               (fun c r => (if decide (p = (c, r)) then 1 else 0) + count_at xy c r)).
    + rewrite total_tabulate2_add, total_tabulate2_indicator, IH by done.
      simpl length. lia.
    + intros c r _. unfold count_at. rewrite filter_cons.
      case_decide; simpl; lia.
Qed.

Section OccupancyTotal.
Context `{FloatOps}.

(** The occupancy array written by [generate_pixel_mask] accounts for
    every hit of the table exactly once: its entries add up to the number
    of rows of the hit table. *)
Theorem occupancy_adds_up_to_hit_count fs input_hits_file f hits n_pixel
    pixel_mask_name output_mask_file threshold filter_size chunk_size :
  fs !! input_hits_file = Some f →
  f !! "Hits"%string = Some (HitTable hits) →
  hits ≠ [] →
  Forall (on_grid n_pixel) hits →
  Z.of_nat (length hits) < 2^31 →
  0 < fst filter_size → 0 < snd filter_size →
  pixel_mask_name ≠ "HistOcc"%string →
  ∃ fs' out occupancy,
    generate_pixel_mask fs input_hits_file n_pixel pixel_mask_name
      output_mask_file threshold filter_size chunk_size = (fs', Ok out)
    ∧ fs' !! out ≫= (.!! "HistOcc"%string) = Some (IntArray occupancy)
    ∧ total occupancy = Z.of_nat (length hits).
Proof.
  intros Hfile Htable Hne Hgrid Hlen Hfc Hfr Hname.
  eexists _, _, _. split.
  { by eapply generate_pixel_mask_result. }
  simpl. rewrite lookup_insert_eq. simpl. unfold mask_file.
  rewrite lookup_insert_ne, lookup_insert_eq by done.
  split; [done|].
  unfold occupancy_array.
  rewrite <- (tabulate2_ext n_pixel (count_at (map pixel_index hits)))
    by (intros; apply count_at_pixel_index).
  rewrite total_count_at, length_map; [done|].
  rewrite map_is_fmap. apply Forall_fmap.
  eapply Forall_impl; [exact Hgrid|]. by intros h Hh.
Qed.

End OccupancyTotal.

Lemma occupancy_adds_up_to_hit_count_witness :
  ∃ fs' out occupancy,
    @generate_pixel_mask exact_arith noisy_run "DUT0.h5" (6, 6) "NoisyPixelMask"
      None (surd_of_ratio 3 1) (3, 3) 4 = (fs', Ok out)
    ∧ fs' !! out ≫= (.!! "HistOcc"%string) = Some (IntArray occupancy)
    ∧ total occupancy = Z.of_nat (length noisy_hits).
Proof.
  apply (occupancy_adds_up_to_hit_count (H := exact_arith) noisy_run "DUT0.h5"
           (hits_file noisy_hits) noisy_hits (6, 6) "NoisyPixelMask" None
           (surd_of_ratio 3 1) (3, 3) 4).
  - reflexivity.
  - reflexivity.
  - discriminate.
  - on_grid_all.
  - simpl. lia.
  - simpl. lia.
  - simpl. lia.
  - discriminate.
Defined.

(** ** What the median filter implies for the mask *)

Lemma nth_Forall (P : Z → Prop) l k d : Forall P l → P d → P (nth k l d).
Proof.
  intros Hl Hd. revert k. induction Hl as [|x l Hx _ IH]; intros [|k]; simpl; auto.
Qed.

Lemma rank_of_sorted_nonneg l : Forall (fun x => 0 ≤ x) l → 0 ≤ rank_of_sorted l.
Proof.
  intros Hl. unfold rank_of_sorted.
  apply (nth_Forall (fun x => 0 ≤ x)); [|done].
  by rewrite merge_sort_Permutation.
Qed.

Lemma window_Forall (P : Z → Prop) a size c r :
  (∀ c' r', P (padded_get a c' r')) → Forall P (window a size c r).
Proof.
  intros Hall. apply Forall_forall. intros x Hx. unfold window in Hx.
  apply list_elem_of_bind in Hx as (dc & Hx & _).
  apply list_elem_of_bind in Hx as (dr & Hx & _).
  apply list_elem_of_singleton in Hx as ->. apply Hall.
Qed.

Lemma padded_get_occupancy_nonneg hits n_pixel c r :
  0 ≤ padded_get (occupancy_array hits n_pixel) c r.
Proof.
  unfold padded_get, occupancy_array.
  destruct (decide (in_shape n_pixel c r)) as [Hin|Hout].
  - rewrite get2_tabulate2 by done. simpl. apply occupancy_of_bounds.
  - by rewrite get2_tabulate2_outside.
Qed.

(** The smoothed occupancy is never negative. *)
Lemma smoothed_nonneg hits n_pixel filter_size c r :
  0 ≤ smoothed hits n_pixel filter_size c r.
Proof.
  unfold smoothed, median_at. apply rank_of_sorted_nonneg, window_Forall.
  intros. apply padded_get_occupancy_nonneg.
Qed.

Lemma median_at_size_one a c r : median_at a (1, 1) c r = padded_get a c r.
Proof.
  unfold median_at, window, window_offsets. simpl.
  by rewrite !Z.add_0_r.
Qed.

Section MaskAndMedian.
Context `{FloatOps}.

(** Where the product [threshold * std] is never below a non-positive
    count (as with a threshold that is not negative), a pixel is flagged
    only if its occupancy is strictly above the median of its
    neighbourhood; in particular no pixel without hits is ever flagged. *)
Theorem flagged_pixel_exceeds_median fs input_hits_file f hits n_pixel
    pixel_mask_name output_mask_file threshold filter_size chunk_size :
  (∀ l d, d ≤ 0 → gt_int d (fmul threshold (ma_std l)) = false) →
  fs !! input_hits_file = Some f →
  f !! "Hits"%string = Some (HitTable hits) →
  hits ≠ [] →
  Forall (on_grid n_pixel) hits →
  Z.of_nat (length hits) < 2^31 →
  0 < fst filter_size → 0 < snd filter_size →
  pixel_mask_name ≠ "HistOcc"%string →
  ∃ fs' out mask,
    generate_pixel_mask fs input_hits_file n_pixel pixel_mask_name
      output_mask_file threshold filter_size chunk_size = (fs', Ok out)
    ∧ fs' !! out ≫= (.!! pixel_mask_name) = Some (BoolArray mask)
    ∧ ∀ c r, get2 mask (c - 1) (r - 1) = Some true →
        0 ≤ smoothed hits n_pixel filter_size c r < occupancy_of hits c r.
Proof.
  intros Hfloat Hfile Htable Hne Hgrid Hlen Hfc Hfr Hname.
  eexists _, _, _. split.
  { by eapply generate_pixel_mask_result. }
  simpl. rewrite lookup_insert_eq. simpl. unfold mask_file.
  rewrite lookup_insert_eq. split; [done|].
  intros c r Hflag. split; [apply smoothed_nonneg|].
  unfold mask_spec in Hflag.
  pose proof (get2_tabulate2_Some _ _ _ _ _ Hflag) as Hin.
  rewrite get2_tabulate2 in Hflag by done.
  replace (c - 1 + 1) with c in Hflag by lia.
  replace (r - 1 + 1) with r in Hflag by lia.
  injection Hflag as Hflag. unfold exceeds, sigma, difference in Hflag.
  destruct (decide (smoothed hits n_pixel filter_size c r < occupancy_of hits c r))
    as [|Hle]; [done|].
  rewrite Hfloat in Hflag by lia. discriminate.
Qed.

(** With a filter of one pixel the median is the occupancy itself, the
    difference vanishes everywhere, and all entries of the mask are one
    and the same comparison of zero against the threshold: no pixel is
    singled out. *)
Theorem filter_size_one_flags_uniformly fs input_hits_file f hits n_pixel
    pixel_mask_name output_mask_file threshold chunk_size :
  fs !! input_hits_file = Some f →
  f !! "Hits"%string = Some (HitTable hits) →
  hits ≠ [] →
  Forall (on_grid n_pixel) hits →
  Z.of_nat (length hits) < 2^31 →
  pixel_mask_name ≠ "HistOcc"%string →
  ∃ fs' out mask,
    generate_pixel_mask fs input_hits_file n_pixel pixel_mask_name
      output_mask_file threshold (1, 1) chunk_size = (fs', Ok out)
    ∧ fs' !! out ≫= (.!! pixel_mask_name) = Some (BoolArray mask)
    ∧ ∀ c r, 1 ≤ c ≤ fst n_pixel → 1 ≤ r ≤ snd n_pixel →
        get2 mask (c - 1) (r - 1)
        = Some (gt_int 0 (fmul threshold
                            (ma_std (concat (tabulate2 n_pixel (fun _ _ => 0)))))).
Proof.
  intros Hfile Htable Hne Hgrid Hlen Hname.
  eexists _, _, _. split.
  { eapply generate_pixel_mask_result; try done; simpl; lia. }
  simpl. rewrite lookup_insert_eq. simpl. unfold mask_file.
  rewrite lookup_insert_eq. split; [done|].
  assert (Hdiff : ∀ i j, in_shape n_pixel i j →
                         difference hits n_pixel (1, 1) (i + 1) (j + 1) = 0).
  { intros i j Hin. unfold difference, smoothed.
    rewrite median_at_size_one.
    replace (i + 1 - 1) with i by lia. replace (j + 1 - 1) with j by lia.
    unfold padded_get, occupancy_array. rewrite get2_tabulate2 by done.
    simpl. lia. }
  intros c r Hc Hr.
  assert (Hin : in_shape n_pixel (c - 1) (r - 1)) by (unfold in_shape; lia).
  unfold mask_spec. rewrite get2_tabulate2 by done.
  unfold exceeds, sigma. rewrite Hdiff by done.
  by rewrite (tabulate2_ext n_pixel _ (fun _ _ => 0)) by done.
Qed.

End MaskAndMedian.

(** Exact arithmetic with a threshold that is not negative meets the
    condition on the product. *)
Lemma exact_arith_product_nonneg num den l d :
  0 ≤ num → 0 < den → d ≤ 0 →
  surd_lt_int d (surd_mul (surd_of_ratio num den) (surd_std l)) = false.
Proof.
  intros Hnum Hden Hd. unfold surd_lt_int, surd_mul, surd_of_ratio, surd_std.
  cbn [s_num s_den s_rad].
  assert (Ha : d * (den * Z.of_nat (length l)) ≤ 0) by nia.
  case_decide; [by apply bool_decide_eq_false_2; lia|].
  case_decide; apply bool_decide_eq_false_2; lia.
Qed.

Lemma flagged_pixel_exceeds_median_witness :
  ∃ fs' out mask,
    @generate_pixel_mask exact_arith noisy_run "DUT0.h5" (6, 6) "NoisyPixelMask"
      None (surd_of_ratio 3 1) (3, 3) 4 = (fs', Ok out)
    ∧ fs' !! out ≫= (.!! "NoisyPixelMask"%string) = Some (BoolArray mask)
    ∧ ∀ c r, get2 mask (c - 1) (r - 1) = Some true →
        0 ≤ smoothed noisy_hits (6, 6) (3, 3) c r < occupancy_of noisy_hits c r.
Proof.
  apply (flagged_pixel_exceeds_median (H := exact_arith) noisy_run "DUT0.h5"
           (hits_file noisy_hits) noisy_hits (6, 6) "NoisyPixelMask" None
           (surd_of_ratio 3 1) (3, 3) 4).
  - intros l d Hd. apply exact_arith_product_nonneg; lia.
  - reflexivity.
  - reflexivity.
  - discriminate.
  - on_grid_all.
  - simpl. lia.
  - simpl. lia.
  - simpl. lia.
  - discriminate.
Defined.

Lemma filter_size_one_flags_uniformly_witness :
  ∃ fs' out mask,
    @generate_pixel_mask exact_arith noisy_run "DUT0.h5" (6, 6) "NoisyPixelMask"
      None (surd_of_ratio 3 1) (1, 1) 4 = (fs', Ok out)
    ∧ fs' !! out ≫= (.!! "NoisyPixelMask"%string) = Some (BoolArray mask)
    ∧ ∀ c r, 1 ≤ c ≤ 6 → 1 ≤ r ≤ 6 →
        get2 mask (c - 1) (r - 1)
        = Some (surd_lt_int 0
                  (surd_mul (surd_of_ratio 3 1)
                     (surd_std (concat (tabulate2 (6, 6) (fun _ _ => 0)))))).
Proof.
  apply (filter_size_one_flags_uniformly (H := exact_arith) noisy_run "DUT0.h5"
           (hits_file noisy_hits) noisy_hits (6, 6) "NoisyPixelMask" None
           (surd_of_ratio 3 1) 4).
  - reflexivity.
  - reflexivity.
  - discriminate.
  - on_grid_all.
  - simpl. lia.
  - discriminate.
Defined.

(** ** [remove_noisy_pixels]: the files it leaves *)

Lemma filter_none {A} (P : A → Prop) `{!∀ x, Decision (P x)} (l : list A) :
  Forall (fun x => ¬ P x) l → filter P l = [].
Proof.
  induction 1 as [|x l Hx _ IH]; [done|]. by rewrite filter_cons_False.
Qed.

Section RemoveNoisyPixelsFiles.
Context `{FloatOps}.

(** Up to the opening of the output file: the mask file is written and
    read back, the flagged pixels are flattened. *)
Lemma remove_noisy_pixels_prepared fs input_hits_file f hits n_pixel
    output_hits_file threshold filter_size chunk_size :
  fs !! input_hits_file = Some f →
  f !! "Hits"%string = Some (HitTable hits) →
  hits ≠ [] →
  Forall (on_grid n_pixel) hits →
  Z.of_nat (length hits) < 2^31 →
  0 < fst filter_size → 0 < snd filter_size →
  let mask := mask_spec hits n_pixel filter_size threshold in
  let occ := occupancy_array hits n_pixel in
  let fs1 := <[default_mask_file input_hits_file "DisabledPixelMask" :=
                 mask_file "DisabledPixelMask" occ mask]> fs in
  let out := default (default_hits_file input_hits_file) output_hits_file in
  remove_noisy_pixels fs input_hits_file n_pixel output_hits_file
    threshold filter_size chunk_size
  = if decide (out = input_hits_file) then (fs1, Err ValueError)
    else
      with_open_write fs1 out
        (let* hits := w_lift (read_hits f) in
         let* _ := create "Hits" (HitTable []) in
         let* _ := select_not_noisy (map (ravel n_pixel) (nonzero mask)) n_pixel
                     (data_aligned_at_events hits chunk_size) in
         let* _ := create "HistOcc" (IntArray occ) in
         let* _ := create "DisabledPixelMask" (BoolArray mask) in
         w_ret out).
Proof.
  intros Hfile Htable Hne Hgrid Hlen Hfc Hfr mask occ fs1 out.
  pose proof (generate_pixel_mask_result fs input_hits_file f hits n_pixel
                "DisabledPixelMask" None threshold filter_size chunk_size
                Hfile Htable Hne Hgrid Hlen Hfc Hfr ltac:(done)) as Hgen.
  simpl in Hgen. unfold remove_noisy_pixels. rewrite Hgen.
  unfold open_read. rewrite lookup_insert_eq. simpl.
  unfold read_mask, read_occupancy, mask_file.
  rewrite lookup_insert_eq. simpl.
  rewrite (lookup_insert_ne _ "DisabledPixelMask"%string "HistOcc"%string)
    by discriminate.
  rewrite lookup_insert_eq. simpl.
  assert (Hravel :
    (if decide (nonzero (mask_spec hits n_pixel filter_size threshold) = [])
     then Ok []
     else ravel_multi_index
            (nonzero (mask_spec hits n_pixel filter_size threshold)) n_pixel)
    = Ok (map (ravel n_pixel)
            (nonzero (mask_spec hits n_pixel filter_size threshold)))).
  { case_decide as Hnil; [by rewrite Hnil|].
    apply ravel_multi_index_ok. apply Forall_forall.
    intros [c r] Hin%nonzero_spec. simpl.
    by apply get2_tabulate2_Some in Hin. }
  rewrite Hravel. simpl.
  rewrite lookup_insert_ne by apply default_mask_file_fresh.
  by rewrite Hfile.
Qed.

(** The whole outcome of [remove_noisy_pixels] on a well-formed table. *)
Lemma remove_noisy_pixels_result fs input_hits_file f hits n_pixel
    output_hits_file threshold filter_size chunk_size :
  fs !! input_hits_file = Some f →
  f !! "Hits"%string = Some (HitTable hits) →
  hits ≠ [] →
  Forall (on_grid n_pixel) hits →
  Z.of_nat (length hits) < 2^31 →
  0 < fst filter_size → 0 < snd filter_size →
  default (default_hits_file input_hits_file) output_hits_file ≠ input_hits_file →
  let mask := mask_spec hits n_pixel filter_size threshold in
  let occ := occupancy_array hits n_pixel in
  let out := default (default_hits_file input_hits_file) output_hits_file in
  remove_noisy_pixels fs input_hits_file n_pixel output_hits_file
    threshold filter_size chunk_size
  = (<[out := <["DisabledPixelMask"%string := BoolArray mask]>
                (<["HistOcc"%string := IntArray occ]>
                   (<["Hits"%string := HitTable (not_flagged mask hits)]> ∅))]>
       (<[default_mask_file input_hits_file "DisabledPixelMask" :=
            mask_file "DisabledPixelMask" occ mask]> fs),
     Ok out).
Proof.
  intros Hfile Htable Hne Hgrid Hlen Hfc Hfr Hout mask occ out.
  rewrite (remove_noisy_pixels_prepared _ _ _ _ _ _ _ _ _
             Hfile Htable Hne Hgrid Hlen Hfc Hfr).
  cbv zeta. fold out. rewrite decide_False by done.
  unfold with_open_write.
  unfold w_bind at 1, w_lift, read_hits. rewrite Htable.
  unfold w_bind at 1, create at 1, create_node. rewrite lookup_empty.
  unfold w_bind at 1.
  erewrite select_not_noisy_spec;
    [|by rewrite data_aligned_at_events_concat | by rewrite lookup_insert_eq].
  rewrite data_aligned_at_events_concat. simpl app.
  rewrite insert_insert_eq.
  rewrite (filter_ext_Forall _
             (fun h => get2 (mask_spec hits n_pixel filter_size threshold)
                         (column h - 1) (row h - 1) ≠ Some true)).
  - fold (not_flagged (mask_spec hits n_pixel filter_size threshold) hits).
    by rewrite write_tail.
  - eapply Forall_impl; [exact Hgrid|]. intros h Hh. simpl.
    by eapply not_masked_iff.
Qed.

(** The output of [remove_noisy_pixels] carries the occupancy and the
    mask along: its [HistOcc] and [DisabledPixelMask] nodes are those of
    the mask file, and [HistOcc] still counts the hits of the input,
    removed ones included. *)
Theorem remove_noisy_pixels_copies_mask_and_occupancy fs input_hits_file f hits
    n_pixel output_hits_file threshold filter_size chunk_size :
  fs !! input_hits_file = Some f →
  f !! "Hits"%string = Some (HitTable hits) →
  hits ≠ [] →
  Forall (on_grid n_pixel) hits →
  Z.of_nat (length hits) < 2^31 →
  0 < fst filter_size → 0 < snd filter_size →
  default (default_hits_file input_hits_file) output_hits_file ≠ input_hits_file →
  let out := default (default_hits_file input_hits_file) output_hits_file in
  let mask_path := default_mask_file input_hits_file "DisabledPixelMask" in
  let fs' := fst (remove_noisy_pixels fs input_hits_file n_pixel output_hits_file
                    threshold filter_size chunk_size) in
  fs' !! out ≫= (.!! "HistOcc"%string)
    = fs' !! mask_path ≫= (.!! "HistOcc"%string)
  ∧ fs' !! out ≫= (.!! "DisabledPixelMask"%string)
    = fs' !! mask_path ≫= (.!! "DisabledPixelMask"%string)
  ∧ fs' !! out ≫= (.!! "HistOcc"%string)
    = Some (IntArray (occupancy_array hits n_pixel)).
Proof.
  intros Hfile Htable Hne Hgrid Hlen Hfc Hfr Hout out mask_path fs'.
  subst fs'.
  rewrite (remove_noisy_pixels_result _ _ _ _ _ _ _ _ _
             Hfile Htable Hne Hgrid Hlen Hfc Hfr Hout).
  cbv zeta. fold out mask_path. simpl fst.
  assert (Hocc :
    ∀ g : H5File,
      <[out := <["DisabledPixelMask"%string :=
                   BoolArray (mask_spec hits n_pixel filter_size threshold)]>
                 (<["HistOcc"%string := IntArray (occupancy_array hits n_pixel)]> g)]>
        (<[mask_path := mask_file "DisabledPixelMask"
                          (occupancy_array hits n_pixel)
                          (mask_spec hits n_pixel filter_size threshold)]> fs)
        !! out ≫= (.!! "HistOcc"%string)
      = Some (IntArray (occupancy_array hits n_pixel))).
  { intros g. rewrite lookup_insert_eq. simpl.
    by rewrite lookup_insert_ne, lookup_insert_eq. }
  rewrite Hocc. rewrite lookup_insert_eq. simpl. rewrite lookup_insert_eq.
  destruct (decide (mask_path = out)) as [E|Hne'].
  - rewrite E, lookup_insert_eq. simpl.
    by rewrite lookup_insert_eq, lookup_insert_ne, lookup_insert_eq.
  - rewrite lookup_insert_ne, lookup_insert_eq by done. simpl.
    unfold mask_file.
    by rewrite lookup_insert_eq, lookup_insert_ne, lookup_insert_eq.
Qed.

(** After [remove_noisy_pixels], no hit is left on a flagged pixel, and
    every other pixel has as many hits as before. *)
Theorem remove_noisy_pixels_clears_flagged_pixels fs input_hits_file f hits
    n_pixel output_hits_file threshold filter_size chunk_size :
  fs !! input_hits_file = Some f →
  f !! "Hits"%string = Some (HitTable hits) →
  hits ≠ [] →
  Forall (on_grid n_pixel) hits →
  Z.of_nat (length hits) < 2^31 →
  0 < fst filter_size → 0 < snd filter_size →
  default (default_hits_file input_hits_file) output_hits_file ≠ input_hits_file →
  let out := default (default_hits_file input_hits_file) output_hits_file in
  let fs' := fst (remove_noisy_pixels fs input_hits_file n_pixel output_hits_file
                    threshold filter_size chunk_size) in
  ∃ mask kept,
    fs' !! out ≫= (.!! "DisabledPixelMask"%string) = Some (BoolArray mask)
    ∧ fs' !! out ≫= (.!! "Hits"%string) = Some (HitTable kept)
    ∧ ∀ c r,
        occupancy_of kept c r
        = if decide (get2 mask (c - 1) (r - 1) = Some true) then 0
          else occupancy_of hits c r.
Proof.
  intros Hfile Htable Hne Hgrid Hlen Hfc Hfr Hout out fs'.
  subst fs'.
  rewrite (remove_noisy_pixels_result _ _ _ _ _ _ _ _ _
             Hfile Htable Hne Hgrid Hlen Hfc Hfr Hout).
  cbv zeta. fold out. simpl fst.
  exists (mask_spec hits n_pixel filter_size threshold),
         (not_flagged (mask_spec hits n_pixel filter_size threshold) hits).
  rewrite lookup_insert_eq. simpl.
  split; [by rewrite lookup_insert_eq|].
  split; [by rewrite lookup_insert_ne, lookup_insert_ne, lookup_insert_eq|].
  intros c r. unfold occupancy_of, not_flagged. rewrite list_filter_filter.
  case_decide as Hflag.
  - rewrite filter_none; [done|].
    apply Forall_forall. intros h _ [[-> ->] Hnot]. done.
  - f_equal. f_equal. apply filter_ext_Forall, Forall_forall.
    intros h _. split; [tauto|]. intros [-> ->]. done.
Qed.

(** Asked to write its result over the input, [remove_noisy_pixels]
    refuses, but only after it has written the mask file. *)
Theorem remove_noisy_pixels_over_input fs input_hits_file f hits n_pixel
    threshold filter_size chunk_size :
  fs !! input_hits_file = Some f →
  f !! "Hits"%string = Some (HitTable hits) →
  hits ≠ [] →
  Forall (on_grid n_pixel) hits →
  Z.of_nat (length hits) < 2^31 →
  0 < fst filter_size → 0 < snd filter_size →
  remove_noisy_pixels fs input_hits_file n_pixel (Some input_hits_file)
    threshold filter_size chunk_size
  = (<[default_mask_file input_hits_file "DisabledPixelMask" :=
         mask_file "DisabledPixelMask" (occupancy_array hits n_pixel)
           (mask_spec hits n_pixel filter_size threshold)]> fs,
     Err ValueError).
Proof.
  intros Hfile Htable Hne Hgrid Hlen Hfc Hfr.
  rewrite (remove_noisy_pixels_prepared _ _ _ _ _ _ _ _ _
             Hfile Htable Hne Hgrid Hlen Hfc Hfr).
  cbv zeta. simpl default. by rewrite decide_True.
Qed.

End RemoveNoisyPixelsFiles.

Lemma remove_noisy_pixels_copies_mask_and_occupancy_witness :
  let out := default (default_hits_file "DUT0.h5") None in
  let mask_path := default_mask_file "DUT0.h5" "DisabledPixelMask" in
  let fs' := fst (@remove_noisy_pixels exact_arith noisy_run "DUT0.h5" (6, 6) None
                    (surd_of_ratio 3 1) (3, 3) 4) in
  fs' !! out ≫= (.!! "HistOcc"%string)
    = fs' !! mask_path ≫= (.!! "HistOcc"%string)
  ∧ fs' !! out ≫= (.!! "DisabledPixelMask"%string)
    = fs' !! mask_path ≫= (.!! "DisabledPixelMask"%string)
  ∧ fs' !! out ≫= (.!! "HistOcc"%string)
    = Some (IntArray (occupancy_array noisy_hits (6, 6))).
Proof.
  apply (remove_noisy_pixels_copies_mask_and_occupancy (H := exact_arith)
           noisy_run "DUT0.h5" (hits_file noisy_hits) noisy_hits (6, 6) None
           (surd_of_ratio 3 1) (3, 3) 4).
  - reflexivity.
  - reflexivity.
  - discriminate.
  - on_grid_all.
  - simpl. lia.
  - simpl. lia.
  - simpl. lia.
  - vm_compute. discriminate.
Defined.

Lemma remove_noisy_pixels_clears_flagged_pixels_witness :
  let out := default (default_hits_file "DUT0.h5") None in
  let fs' := fst (@remove_noisy_pixels exact_arith noisy_run "DUT0.h5" (6, 6) None
                    (surd_of_ratio 3 1) (3, 3) 4) in
  ∃ mask kept,
    fs' !! out ≫= (.!! "DisabledPixelMask"%string) = Some (BoolArray mask)
    ∧ fs' !! out ≫= (.!! "Hits"%string) = Some (HitTable kept)
    ∧ ∀ c r,
        occupancy_of kept c r
        = if decide (get2 mask (c - 1) (r - 1) = Some true) then 0
          else occupancy_of noisy_hits c r.
Proof.
  apply (remove_noisy_pixels_clears_flagged_pixels (H := exact_arith)
           noisy_run "DUT0.h5" (hits_file noisy_hits) noisy_hits (6, 6) None
           (surd_of_ratio 3 1) (3, 3) 4).
  - reflexivity.
  - reflexivity.
  - discriminate.
  - on_grid_all.
  - simpl. lia.
  - simpl. lia.
  - simpl. lia.
  - vm_compute. discriminate.
Defined.

Lemma remove_noisy_pixels_over_input_witness :
  @remove_noisy_pixels exact_arith noisy_run "DUT0.h5" (6, 6)
    (Some "DUT0.h5"%string) (surd_of_ratio 3 1) (3, 3) 4
  = (<[default_mask_file "DUT0.h5" "DisabledPixelMask" :=
         mask_file "DisabledPixelMask" (occupancy_array noisy_hits (6, 6))
           (@mask_spec exact_arith noisy_hits (6, 6) (3, 3) (surd_of_ratio 3 1))]>
       noisy_run,
     Err ValueError).
Proof.
  apply (remove_noisy_pixels_over_input (H := exact_arith) noisy_run "DUT0.h5"
           (hits_file noisy_hits) noisy_hits (6, 6) (surd_of_ratio 3 1) (3, 3) 4).
  - reflexivity.
  - reflexivity.
  - discriminate.
  - on_grid_all.
  - simpl. lia.
  - simpl. lia.
  - simpl. lia.
Defined.

(** ** [cluster_hits]: edges of a run *)

(** The pixels handed to the clusterizer are the flagged entries of the
    mask, counted from 1 like the columns and rows of the hits: a hit
    lies on a listed pixel exactly when [remove_noisy_pixels] would drop
    it for the same mask. *)
Theorem pixels_of_mask_one_based (mask : array2 bool) c r :
  (c, r) ∈ pixels_of_mask mask ↔ get2 mask (c - 1) (r - 1) = Some true.
Proof.
  unfold pixels_of_mask. rewrite map_is_fmap, list_elem_of_fmap.
  rewrite <- nonzero_spec. split.
  - intros ([c0 r0] & [= -> ->] & Hin). simpl.
    by replace (c0 + 1 - 1) with c0 by lia; replace (r0 + 1 - 1) with r0 by lia.
  - intros Hin. exists (c - 1, r - 1). split; [simpl; f_equal; lia | done].
Qed.

Section PixelClustererEdges.
Context `{Clusterizer}.

(** On a hit table without rows [cluster_hits] goes through, whatever
    the clusterizer, and writes an empty Cluster table. *)
Theorem cluster_hits_empty_table fs input_hits_file f output_cluster_file
    disabled_file noisy_file disabled_pixels noisy_pixels
    min_hit_charge max_hit_charge cd rd fd chunk_size :
  fs !! input_hits_file = Some f →
  f !! "Hits"%string = Some (HitTable []) →
  read_pixels fs disabled_file "DisabledPixelMask" = Ok disabled_pixels →
  read_pixels fs noisy_file "NoisyPixelMask" = Ok noisy_pixels →
  default (default_cluster_file input_hits_file) output_cluster_file
    ≠ input_hits_file →
  cluster_hits fs input_hits_file output_cluster_file disabled_file noisy_file
    min_hit_charge max_hit_charge cd rd fd chunk_size
  = (let out := default (default_cluster_file input_hits_file)
                  output_cluster_file in
     (<[out := {[ "Cluster"%string := ClusterTable [] ]}]> fs, Ok out)).
Proof.
  intros Hfile Htable Hdis Hnoisy Hout.
  by rewrite (cluster_hits_run _ _ _ _ _ _ _ _ _ _ _ _ _ _ _
                Hfile Htable Hdis Hnoisy Hout).
Qed.

(** When the input file has no [Hits] node, [cluster_hits] fails on it
    only after the output file has been created: an empty Cluster table
    is left behind. *)
Theorem cluster_hits_missing_hits_node fs input_hits_file f output_cluster_file
    disabled_file noisy_file disabled_pixels noisy_pixels
    min_hit_charge max_hit_charge cd rd fd chunk_size :
  fs !! input_hits_file = Some f →
  f !! "Hits"%string = None →
  read_pixels fs disabled_file "DisabledPixelMask" = Ok disabled_pixels →
  read_pixels fs noisy_file "NoisyPixelMask" = Ok noisy_pixels →
  default (default_cluster_file input_hits_file) output_cluster_file
    ≠ input_hits_file →
  cluster_hits fs input_hits_file output_cluster_file disabled_file noisy_file
    min_hit_charge max_hit_charge cd rd fd chunk_size
  = (let out := default (default_cluster_file input_hits_file)
                  output_cluster_file in
     (<[out := {[ "Cluster"%string := ClusterTable [] ]}]> fs,
      Err NoSuchNodeError)).
Proof.
  intros Hfile Htable Hdis Hnoisy Hout. unfold cluster_hits, open_read.
  rewrite Hdis, Hnoisy, Hfile. simpl. rewrite decide_False by done.
  unfold with_open_write, w_bind, create, create_node, w_lift, read_hits.
  by rewrite lookup_empty, Htable.
Qed.

(** A run of [cluster_hits] that returns has seen no decrease inside any
    chunk: the event numbers of every chunk read from the table are in
    non-decreasing order. *)
Theorem cluster_hits_returns_only_on_ordered_chunks fs fs' input_hits_file f
    hits out output_cluster_file disabled_file noisy_file
    min_hit_charge max_hit_charge cd rd fd chunk_size :
  fs !! input_hits_file = Some f →
  f !! "Hits"%string = Some (HitTable hits) →
  Forall event_range (map event_number hits) →
  cluster_hits fs input_hits_file output_cluster_file disabled_file noisy_file
    min_hit_charge max_hit_charge cd rd fd chunk_size = (fs', Ok out) →
  Forall (fun chunk => non_decreasing (map event_number chunk))
    (data_aligned_at_events hits chunk_size).
Proof.
  intros Hfile Htable Hrange Hrun.
  destruct (read_pixels fs disabled_file "DisabledPixelMask")
    as [disabled_pixels|e] eqn:Hdis;
    [|revert Hrun; unfold cluster_hits; rewrite Hdis; done].
  destruct (read_pixels fs noisy_file "NoisyPixelMask")
    as [noisy_pixels|e] eqn:Hnoisy;
    [|revert Hrun; unfold cluster_hits; rewrite Hdis, Hnoisy; done].
  destruct (decide (default (default_cluster_file input_hits_file)
                      output_cluster_file = input_hits_file)) as [Hsame|Hout].
  { revert Hrun. unfold cluster_hits, open_read.
    rewrite Hdis, Hnoisy, Hfile. simpl. by rewrite decide_True. }
  rewrite (cluster_hits_run _ _ _ _ _ _ _ _ _ _ _ _ _ _ _
             Hfile Htable Hdis Hnoisy Hout) in Hrun.
  cbv zeta in Hrun.
  destruct (cluster_chunks _ _ _ _ _) as [f' [[]|e]] eqn:Hloop;
    simpl in Hrun; [|done].
  eapply cluster_chunks_ok in Hloop as (outs & _ & Houts);
    [| apply configured_new | by rewrite lookup_insert_eq].
  rewrite <- (data_aligned_at_events_concat hits chunk_size) in Hrange.
  revert Hrange. induction Houts as [|chunk cl chunks outs Hone _ IH]; intros Hrange.
  - constructor.
  - simpl in Hrange. rewrite map_app in Hrange.
    apply Forall_app in Hrange as [Hr1 Hr2].
    constructor; [|by apply IH].
    apply all_diff_nonneg_sorted; [done|]. by destruct Hone as [? _].
Qed.

(** Running [cluster_hits] again with the same arguments, on the files
    its first run left, gives the same result and changes nothing, as
    long as the output is none of the files it reads. *)
Theorem cluster_hits_rerun fs input_hits_file output_cluster_file disabled_file
    noisy_file min_hit_charge max_hit_charge cd rd fd chunk_size :
  let out := default (default_cluster_file input_hits_file) output_cluster_file in
  disabled_file ≠ Some out →
  noisy_file ≠ Some out →
  let run fs := cluster_hits fs input_hits_file output_cluster_file
                  disabled_file noisy_file min_hit_charge max_hit_charge
                  cd rd fd chunk_size in
  run (fst (run fs)) = run fs.
Proof.
  intros out Hdis Hnoisy run. subst run. cbv beta.
  assert (Hpix : ∀ (g : H5File) mask_file name,
            mask_file ≠ Some out →
            read_pixels (<[out := g]> fs) mask_file name
            = read_pixels fs mask_file name).
  { intros g [p|] name Hp; [|done]. unfold read_pixels, open_read.
    rewrite lookup_insert_ne; [done | congruence]. }
  unfold cluster_hits. fold out.
  destruct (read_pixels fs disabled_file "DisabledPixelMask"
            ≫= _) as [[[disabled_pixels noisy_pixels] input_file_h5]|e] eqn:Hfirst.
  - case_decide as Hsame;
      [simpl fst; rewrite Hfirst; done|].
    unfold with_open_write.
    destruct (w_bind _ _ ∅) as [g r] eqn:Hbody. simpl.
    rewrite !Hpix by done. unfold open_read in *.
    rewrite lookup_insert_ne by done. rewrite Hfirst.
    unfold with_open_write. rewrite Hbody.
    by rewrite insert_insert_eq.
  - simpl. by rewrite Hfirst.
Qed.

(** Told to write its result over the file of disabled pixels, a run of
    [cluster_hits] that goes through destroys that mask: the same call
    again fails, because the node it reads is gone. *)
Theorem cluster_hits_over_mask_file fs fs1 input_hits_file mask_path noisy_file
    min_hit_charge max_hit_charge cd rd fd chunk_size out :
  cluster_hits fs input_hits_file (Some mask_path) (Some mask_path) noisy_file
    min_hit_charge max_hit_charge cd rd fd chunk_size = (fs1, Ok out) →
  cluster_hits fs1 input_hits_file (Some mask_path) (Some mask_path) noisy_file
    min_hit_charge max_hit_charge cd rd fd chunk_size
  = (fs1, Err NoSuchNodeError).
Proof.
  intros Hrun.
  assert (Hfile : ∃ clusters,
            fs1 !! mask_path = Some {[ "Cluster"%string := ClusterTable clusters ]}).
  { revert Hrun. unfold cluster_hits.
    destruct (_ ≫= _) as [[[disabled_pixels noisy_pixels] input_file_h5]|e];
      [|done].
    simpl default. case_decide; [done|].
    unfold with_open_write, w_bind, create, create_node, w_lift, w_ret.
    rewrite lookup_empty.
    destruct (read_hits input_file_h5) as [hits|]; [|done].
    destruct (cluster_chunks _ _ _ _ _) as [g [[]|]] eqn:Hloop; [|done].
    intros [= <- _].
    assert (Hempty : (<["Cluster"%string := ClusterTable []]> (∅ : H5File))
                       !! "Cluster"%string = Some (ClusterTable []))
      by apply lookup_insert_eq.
    destruct (cluster_chunks_ok min_hit_charge max_hit_charge _ _ _ _ _ _ _
                (configured_new _ _ cd rd fd) Hempty Hloop) as (outs & -> & _).
    by exists (concat outs); rewrite lookup_insert_eq, insert_insert_eq. }
  destruct Hfile as [clusters Hfile].
  assert (Hread : read_pixels fs1 (Some mask_path) "DisabledPixelMask"
                  = Err NoSuchNodeError).
  { unfold read_pixels, open_read. rewrite Hfile. simpl.
    unfold read_mask. by rewrite lookup_singleton_ne. }
  unfold cluster_hits. by rewrite Hread.
Qed.

End PixelClustererEdges.

(** A file without any node, and a run with a file of disabled pixels. *)
Definition no_table_run : FileSystem := {[ "DUT0.h5"%string := ∅ ]}.

Definition masked_run : FileSystem :=
  <["mask.h5"%string :=
      {[ "DisabledPixelMask"%string := BoolArray [[false; true]; [false; false]] ]}]>
    ordered_run.

Lemma cluster_hits_empty_table_witness :
  @cluster_hits singleton_clusterizer empty_run "DUT0.h5" None None None
    0 None 1 1 1 2
  = (let out := default (default_cluster_file "DUT0.h5") None in
     (<[out := {[ "Cluster"%string := ClusterTable [] ]}]> empty_run, Ok out)).
Proof.
  apply (cluster_hits_empty_table (H := singleton_clusterizer) empty_run
           "DUT0.h5" (hits_file []) None None None None None 0 None 1 1 1 2).
  - reflexivity.
  - reflexivity.
  - reflexivity.
  - reflexivity.
  - vm_compute. discriminate.
Defined.

Lemma cluster_hits_missing_hits_node_witness :
  @cluster_hits singleton_clusterizer no_table_run "DUT0.h5" None None None
    0 None 1 1 1 2
  = (let out := default (default_cluster_file "DUT0.h5") None in
     (<[out := {[ "Cluster"%string := ClusterTable [] ]}]> no_table_run,
      Err NoSuchNodeError)).
Proof.
  apply (cluster_hits_missing_hits_node (H := singleton_clusterizer) no_table_run
           "DUT0.h5" ∅ None None None None None 0 None 1 1 1 2).
  - reflexivity.
  - reflexivity.
  - reflexivity.
  - reflexivity.
  - vm_compute. discriminate.
Defined.

Lemma cluster_hits_returns_only_on_ordered_chunks_witness :
  Forall (fun chunk => non_decreasing (map event_number chunk))
    (data_aligned_at_events ordered_hits 2).
Proof.
  apply (cluster_hits_returns_only_on_ordered_chunks (H := singleton_clusterizer)
           ordered_run
           (fst (@cluster_hits singleton_clusterizer ordered_run "DUT0.h5"
                   None None None 0 None 1 1 1 2))
           "DUT0.h5" (hits_file ordered_hits) ordered_hits "DUT0_cluster.h5"
           None None None 0 None 1 1 1 2).
  - reflexivity.
  - reflexivity.
  - repeat constructor; unfold event_range; simpl; lia.
  - vm_compute. reflexivity.
Defined.

Lemma cluster_hits_rerun_witness :
  let run fs := @cluster_hits singleton_clusterizer fs "DUT0.h5" None None None
                  0 None 1 1 1 2 in
  run (fst (run ordered_run)) = run ordered_run.
Proof.
  apply (cluster_hits_rerun (H := singleton_clusterizer) ordered_run "DUT0.h5"
           None None None 0 None 1 1 1 2); discriminate.
Defined.

Lemma cluster_hits_over_mask_file_witness :
  let fs1 := fst (@cluster_hits singleton_clusterizer masked_run "DUT0.h5"
                    (Some "mask.h5"%string) (Some "mask.h5"%string) None
                    0 None 1 1 1 2) in
  @cluster_hits singleton_clusterizer fs1 "DUT0.h5" (Some "mask.h5"%string)
    (Some "mask.h5"%string) None 0 None 1 1 1 2
  = (fs1, Err NoSuchNodeError).
Proof.
  intros fs1.
  apply (cluster_hits_over_mask_file (H := singleton_clusterizer) masked_run fs1
           "DUT0.h5" "mask.h5" None 0 None 1 1 1 2 "mask.h5").
  vm_compute. reflexivity.
Defined.

(** ** Calling [cluster_hits] by keyword *)

Section KeywordCalls.
Context `{Clusterizer}.

(** Parameters that all have a default are always bound. *)
Lemma bind_defaults_ok (params : list (string * option PyVal))
    (kwds : gmap string PyVal) :
  Forall (fun p => is_Some (snd p)) params →
  ∃ bound : gmap string PyVal,
    foldr (fun p (acc : result (gmap string PyVal)) =>
             bound ← acc;
             match kwds !! fst p, snd p with
             | Some v, _ => Ok (<[fst p := v]> bound)
             | None, Some d => Ok (<[fst p := d]> bound)
             | None, None => Err TypeError
             end)
          (Ok ∅) params = Ok bound.
Proof.
  induction 1 as [|p params [d Hd] _ [bound IH]]; simpl; [by eexists|].
  rewrite IH. simpl. rewrite Hd. destruct (kwds !! fst p); by eexists.
Qed.

Lemma bind_keywords_required name params (kwds : gmap string PyVal) :
  kwds !! name = None →
  Forall (fun p => is_Some (snd p)) params →
  bind_keywords ((name, None) :: params) kwds = Err TypeError.
Proof.
  intros Hnone Hdefaults. unfold bind_keywords.
  case_decide; [|done]. cbn [foldr].
  destruct (bind_defaults_ok params kwds Hdefaults) as [bound Hbound].
  rewrite Hbound. simpl. by rewrite Hnone.
Qed.

(** [input_hits_file] has no default: a call that does not pass it is
    refused with a [TypeError] before any file is touched, whatever else
    it passes. *)
Theorem call_cluster_hits_needs_input fs (kwds : gmap string PyVal) :
  kwds !! "input_hits_file"%string = None →
  call_cluster_hits fs kwds = (fs, Err TypeError).
Proof.
  intros Hnone. unfold call_cluster_hits.
  pose proof (bind_keywords_required "input_hits_file"
                (tail cluster_hits_parameters) kwds Hnone) as E.
  change (("input_hits_file"%string, None) :: tail cluster_hits_parameters)
    with cluster_hits_parameters in E.
  rewrite E; [done|]. repeat constructor; by eexists.
Qed.

(** The keywords of the clustering step of [eutelescope_example.py]. *)
Definition example_cluster_kwargs (input_hits_file dut_name : string)
    : gmap string PyVal :=
  {[ "input_hits_file"%string := PyStr input_hits_file;
     "max_x_distance"%string := PyInt 3;
     "max_y_distance"%string := PyInt 3;
     "max_time_distance"%string := PyInt 2;
     "max_cluster_hits"%string := PyInt 1000000;
     "dut_name"%string := PyStr dut_name ]}.

(** The example script calls [cluster_hits] with keywords the function
    does not have: for every file and DUT name the call is refused with a
    [TypeError], and nothing is read or written. *)
Theorem example_cluster_call_refused fs input_hits_file dut_name :
  call_cluster_hits fs (example_cluster_kwargs input_hits_file dut_name)
  = (fs, Err TypeError).
Proof.
  apply (call_cluster_hits_unexpected_keyword _ _ "max_x_distance").
  - apply elem_of_dom. unfold example_cluster_kwargs.
    exists (PyInt 3). by simplify_map_eq.
  - simpl. rewrite !not_elem_of_cons. repeat split; try discriminate.
    apply not_elem_of_nil.
Qed.

End KeywordCalls.

Lemma call_cluster_hits_needs_input_witness :
  @call_cluster_hits singleton_clusterizer ordered_run
    {[ "chunk_size"%string := PyInt 2 ]}
  = (ordered_run, Err TypeError).
Proof.
  apply (call_cluster_hits_needs_input (H := singleton_clusterizer) ordered_run
           {[ "chunk_size"%string := PyInt 2 ]}).
  reflexivity.
Defined.
